(** * SELD building blocks and their analytical complexity

    A shallow embedding of [modules.py] (the block catalog) and
    [stage_complexity.py] (the stage-level complexity catalog).

    - Python values are an inductive type [value]; a configuration is a
      dictionary from string keys to values ([gmap string value]).
    - Exceptions are explicit: every fallible function returns [result].
    - The residual stages deep-copy their configuration and then assign to
      the copy; dictionaries therefore live in a heap of objects and the
      stage functions are written in a state-and-error monad over it.
    - Keras tensors are symbolic: a tensor is the expression that built it
      together with its (batch-excluded) shape.  Keras layers are modelled
      by the checks they make on their arguments and by their documented
      shape contract. *)

From Stdlib Require Import ZArith QArith_base String List.
From stdpp Require Import gmap strings list fin_maps.

Local Open Scope string_scope.
Local Open Scope Z_scope.

(** ** Python values and exceptions *)

(** A float is a binary64 number; it is held as the rational it equals.
    The arithmetic that rounds is written out in [round_double]. *)
#[warnings="-register-all"]
Inductive value : Type :=
  | VNone
  | VInt (z : Z)
  | VFloat (q : Q)
  | VStr (s : string)
  | VList (l : list value)
  | VTuple (l : list value)
  | VDict (d : list (string * value)).

Inductive exn : Type :=
  | KeyError (key : string)
  | ValueError (msg : string)
  | TypeError (msg : string)
  | IndexError
  | ZeroDivisionError
  | OverflowError
  | AssertionError.

Inductive result (A : Type) : Type :=
  | Ok (a : A)
  | Err (e : exn).
Arguments Ok {A} a.
Arguments Err {A} e.

#[global] Instance result_ret : MRet result := λ A a, Ok a.
#[global] Instance result_bind : MBind result := λ A B k r,
  match r with
  | Ok a => k a
  | Err e => Err e
  end.

#[global] Instance result_fmap : FMap result := λ A B f r,
  match r with
  | Ok a => Ok (f a)
  | Err e => Err e
  end.

(** A configuration: string keys, arbitrary Python values. *)
Abbreviation config := (gmap string value).

(** [model_config[key]] *)
Definition getitem (model_config : config) (key : string) : result value :=
  match model_config !! key with
  | Some v => Ok v
  | None => Err (KeyError key)
  end.

(** [model_config.get(key, default)] *)
Definition get (model_config : config) (key : string) (default : value) : value :=
  match model_config !! key with
  | Some v => v
  | None => default
  end.

(** *** The few Python operators the code uses *)

Definition q_of_int (z : Z) : Q := Qmake z 1.

(** Exact comparison of two rationals by cross multiplication. *)
Definition q_eqb (p q : Q) : bool :=
  Z.eqb (Qnum p * Zpos (Qden q)) (Qnum q * Zpos (Qden p)).

Fixpoint assoc (k : string) (d : list (string * value)) : option value :=
  match d with
  | [] => None
  | (k', v) :: d' => if String.eqb k k' then Some v else assoc k d'
  end.

(** [a == b].  Numbers compare by value across int and float; a list is
    never equal to a tuple; dictionaries compare key by key. *)
Fixpoint py_eq (a b : value) {struct a} : bool :=
  let fix all2 (xs ys : list value) {struct xs} : bool :=
    match xs, ys with
    | [], [] => true
    | x :: xs', y :: ys' => py_eq x y && all2 xs' ys'
    | _, _ => false
    end in
  let fix sub (d1 d2 : list (string * value)) {struct d1} : bool :=
    match d1 with
    | [] => true
    | (k, v) :: d1' =>
        match assoc k d2 with
        | Some v' => py_eq v v' && sub d1' d2
        | None => false
        end
    end in
  match a, b with
  | VNone, VNone => true
  | VInt x, VInt y => Z.eqb x y
  | VInt x, VFloat y => q_eqb (q_of_int x) y
  | VFloat x, VInt y => q_eqb x (q_of_int y)
  | VFloat x, VFloat y => q_eqb x y
  | VStr x, VStr y => String.eqb x y
  | VList xs, VList ys => all2 xs ys
  | VTuple xs, VTuple ys => all2 xs ys
  | VDict d1, VDict d2 => Nat.eqb (length d1) (length d2) && sub d1 d2
  | _, _ => false
  end.

(** [len(v)] *)
Definition py_len (v : value) : result nat :=
  match v with
  | VList l | VTuple l => Ok (length l)
  | VStr s => Ok (String.length s)
  | VDict d => Ok (length d)
  | _ => Err (TypeError "object has no len()")
  end.

(** [v[i]] for the non-negative indices produced by [range]. *)
Definition py_index (v : value) (i : nat) : result value :=
  match v with
  | VList l | VTuple l =>
      match l !! i with
      | Some x => Ok x
      | None => Err IndexError
      end
  | _ => Err (TypeError "object is not subscriptable")
  end.

(** [isinstance(v, int)] *)
Definition is_int (v : value) : bool :=
  match v with VInt _ => true | _ => false end.

(** The number of iterations of [for i in range(v)]. *)
Definition py_range (v : value) : result nat :=
  match v with
  | VInt n => Ok (Z.to_nat n)
  | _ => Err (TypeError "object cannot be interpreted as an integer")
  end.

(** *** Floating-point rounding *)

(** [floor(log2(n / d))] *)
Definition floor_log2 (n d : positive) : Z :=
  let k := Z.log2 (Zpos n) - Z.log2 (Zpos d) in
  if Zpos n * 2 ^ Z.max 0 (- k) <? Zpos d * 2 ^ Z.max 0 k then k - 1 else k.

(** The integer nearest to [n / d] for [0 < d], a tie going to the even
    neighbour. *)
Definition round_half_even (n d : Z) : Z :=
  let q := n / d in
  match 2 * (n mod d) ?= d with
  | Lt => q
  | Gt => q + 1
  | Eq => if Z.even q then q else q + 1
  end.

(** The binary64 number nearest to a rational, ties to even: 53 significant
    bits, the exponent of the last place between -1074 and 971.  [None]
    stands for an infinity. *)
Definition round_double (x : Q) : option Q :=
  match Qnum x with
  | 0 => Some (Qmake 0 1)
  | Zpos n | Zneg n =>
      let e := Z.max (floor_log2 n (Qden x) - 52) (-1074) in
      let m := round_half_even (Qnum x * 2 ^ Z.max 0 (- e))
                               (Zpos (Qden x) * 2 ^ Z.max 0 e) in
      if (0 <=? e) && (2 ^ 1024 <=? Z.abs m * 2 ^ Z.max 0 e) then None
      else Some (Qmake (m * 2 ^ Z.max 0 e) (Z.to_pos (2 ^ Z.max 0 (- e))))
  end.

(** The float product: the exact product of the two floats, rounded.  An
    operand that is no binary64 number (an int, a decimal literal) is
    converted first. *)
Definition float_mul (p q : Q) : option Q :=
  match round_double p, round_double q with
  | Some p', Some q' =>
      round_double (Qmake (Qnum p' * Qnum q') (Qden p' * Qden q'))
  | _, _ => None
  end.

(** [int(x)] of a float: truncation toward zero. *)
Definition float_to_int (x : Q) : Z := Z.quot (Qnum x) (Zpos (Qden x)).

Definition as_number (v : value) : option Q :=
  match v with
  | VInt z => Some (q_of_int z)
  | VFloat q => Some q
  | _ => None
  end.

(** [int(a * b)].  The product of two ints is exact; a product with a float
    is a float product, rounded before it is truncated.  An int too large
    for a float, or an infinite product, raises [OverflowError]. *)
Definition py_int_mul (a b : value) : result Z :=
  match a, b with
  | VInt x, VInt y => Ok (x * y)
  | VInt x, VFloat q | VFloat q, VInt x =>
      match float_mul (q_of_int x) q with
      | Some r => Ok (float_to_int r)
      | None => Err OverflowError
      end
  | VFloat p, VFloat q =>
      match float_mul p q with
      | Some r => Ok (float_to_int r)
      | None => Err OverflowError
      end
  | _, _ => Err (TypeError "unsupported operand type(s) for *")
  end.

(** [a // b] (floor division): an int for two ints, a float otherwise. *)
Definition py_floordiv (a b : value) : result value :=
  match a, b with
  | VInt x, VInt y =>
      if y =? 0 then Err ZeroDivisionError else Ok (VInt (x / y))
  | _, _ =>
      match as_number a, as_number b with
      | Some p, Some q =>
          if Qnum q =? 0 then Err ZeroDivisionError
          else Ok (VFloat (q_of_int ((Qnum p * Zpos (Qden q))
                                     / (Qnum q * Zpos (Qden p)))))
      | _, _ => Err (TypeError "unsupported operand type(s) for //")
      end
  end.

(** [a * 4] as used for the default feed-forward width. *)
Definition py_mul_int (a : value) (n : Z) : result value :=
  match a with
  | VInt x => Ok (VInt (x * n))
  | VFloat q => Ok (VFloat (Qmake (Qnum q * n) (Qden q)))
  | VList l => Ok (VList (concat (replicate (Z.to_nat n) l)))
  | VTuple l => Ok (VTuple (concat (replicate (Z.to_nat n) l)))
  | VStr s => Ok (VStr (fold_right String.append "" (replicate (Z.to_nat n) s)))
  | _ => Err (TypeError "unsupported operand type(s) for *")
  end.

(** ** Cost records and the cost accumulator *)

(** A cost record maps a cost category (parameter count, multiply-accumulate
    count, ...) to an integer amount. *)
Abbreviation cost := (gmap string Z).

(** Modelled from the spec: [utils.dict_add] is imported by
    [stage_complexity.py] but its module is not part of the sources.  The
    spec describes it as the pure merge of two cost records: for every key
    present in either, the values are summed, a key absent from one side
    counting as zero. *)
Definition dict_add (first second : cost) : cost :=
  union_with (λ x y, Some (x + y)) first second.

(** The amount recorded under a key, an absent key counting as zero. *)
Definition amount (cx : cost) (key : string) : Z := default 0 (cx !! key).

(** ** Keras: regularizers, layers and symbolic tensors *)

Record regularizer : Type := L1L2 { reg_l1 : value; reg_l2 : value }.

(** A regularization penalty: [None] is read as 0, an int or a float is
    kept, anything else is refused. *)
Definition check_penalty (v : value) : result value :=
  match v with
  | VNone => Ok (VFloat (Qmake 0 1))
  | VInt _ | VFloat _ => Ok v
  | _ => Err (ValueError "not a valid regularization penalty number")
  end.

(** [tf.keras.regularizers.l1_l2] called on an unpacked mapping: the
    argument must be a mapping, only the keywords [l1] and [l2] exist
    (both default to 0.01), and each penalty must be a number. *)
Definition l1_l2 (kwargs : value) : result regularizer :=
  match kwargs with
  | VDict d =>
      if forallb (λ kv, String.eqb kv.1 "l1" || String.eqb kv.1 "l2") d
      then
        l1 ← check_penalty (default (VFloat (Qmake 1 100)) (assoc "l1" d));
        l2 ← check_penalty (default (VFloat (Qmake 1 100)) (assoc "l2" d));
        Ok (L1L2 l1 l2)
      else Err (TypeError "l1_l2() got an unexpected keyword argument")
  | _ => Err (TypeError "argument after ** must be a mapping")
  end.

Inductive layer : Type :=
  | Conv2D (filters kernel_size strides : value) (padding : string)
           (groups : value) (kernel_regularizer : option regularizer)
  | BatchNormalization
  | Activation (activation : value)
  | MaxPooling2D (pool_size : value)
  | Dropout (rate : value)
  | MultiHeadAttention (num_heads key_dim dropout : value)
  | LayerNormalization
  | Dense (units activation : value).

(** The expression that built a symbolic tensor. *)
#[warnings="-register-all"]
Inductive expr : Type :=
  | EInput (id : nat)
  | ECall (l : layer) (args : list expr)
  | EAdd (a b : expr).

(** A symbolic tensor: its shape without the batch axis, channel axis last,
    and the expression it stands for. *)
Record tensor : Type := Tensor { shape : list Z; node : expr }.

(** [t.shape[-1]].  A tensor that has only the batch axis answers with the
    batch size, which is unknown ([None]) for a symbolic tensor. *)
Definition shape_last (t : tensor) : value :=
  match last (shape t) with
  | Some d => VInt d
  | None => VNone
  end.

Definition as_positive_int (what : string) (v : value) : result Z :=
  match v with
  | VInt z => if 0 <? z then Ok z else Err (ValueError what)
  | _ => Err (TypeError what)
  end.

(** The number of filters of a convolution: a float is converted with
    [int()], and the count must be positive. *)
Definition as_filters (v : value) : result Z :=
  match v with
  | VInt z => if 0 <? z then Ok z else Err (ValueError "filters")
  | VFloat q =>
      if 0 <? float_to_int q then Ok (float_to_int q)
      else Err (ValueError "filters")
  | _ => Err (TypeError "filters")
  end.

(** The units of a dense layer: a float is converted with [int()], and
    the count must not be negative. *)
Definition as_units (v : value) : result Z :=
  match v with
  | VInt z => if z <? 0 then Err (ValueError "units") else Ok z
  | VFloat q =>
      if float_to_int q <? 0 then Err (ValueError "units")
      else Ok (float_to_int q)
  | _ => Err (TypeError "units")
  end.

(** The names [tf.keras.activations.get] resolves. *)
Definition known_activations : list string :=
  ["relu"; "sigmoid"; "tanh"; "softmax"; "elu"; "selu"; "softplus";
   "softsign"; "swish"; "gelu"; "exponential"; "hard_sigmoid"; "linear"].

(** [tf.keras.activations.get(activation)]: [None] is the linear
    activation, and a string must name an activation. *)
Definition check_activation (activation : value) : result unit :=
  match activation with
  | VNone => Ok tt
  | VStr name =>
      if existsb (String.eqb name) known_activations then Ok tt
      else Err (ValueError "Unknown activation function")
  | _ => Err (TypeError "Could not interpret activation function identifier")
  end.

(** The rate of a dropout layer: a number with [0 <= rate < 1]. *)
Definition check_rate (rate : value) : result unit :=
  match as_number rate with
  | Some q =>
      if (0 <=? Qnum q) && (Qnum q <? Zpos (Qden q)) then Ok tt
      else Err (ValueError "rate must be in the range [0, 1)")
  | None => Err (ValueError "rate must be a float in the range [0, 1)")
  end.

(** The dropout of a recurrent layer is clipped by [min(1., max(0., rate))],
    which needs a number. *)
Definition check_number (v : value) : result unit :=
  match as_number v with
  | Some _ => Ok tt
  | None => Err (TypeError "'<' not supported")
  end.

(** An int [k] stands for the pair [(k, k)]; otherwise a sequence of two
    ints is expected. *)
Definition as_pair (what : string) (v : value) : result (Z * Z) :=
  match v with
  | VInt k => if 0 <? k then Ok (k, k) else Err (ValueError what)
  | VList [VInt a; VInt b] | VTuple [VInt a; VInt b] =>
      if (0 <? a) && (0 <? b) then Ok (a, b) else Err (ValueError what)
  | _ => Err (ValueError what)
  end.

(** Length of one spatial axis after a convolution or pooling window. *)
Definition conv_output_length (n k : Z) (padding : string) (s : Z) : result Z :=
  if String.eqb padding "same" then Ok ((n + s - 1) / s)
  else if String.eqb padding "valid" then
    if n <? k then Err (ValueError "negative dimension size")
    else Ok ((n - k) / s + 1)
  else Err (ValueError "invalid padding").

Definition replace_last (s : list Z) (d : Z) : list Z := removelast s ++ [d].

(** The shape contract of each layer, on batch-excluded shapes. *)
Definition layer_shape (l : layer) (args : list (list Z)) : result (list Z) :=
  match l, args with
  | Conv2D filters kernel_size strides padding groups _, [[h; w; c]] =>
      f ← as_filters filters;
      '(kh, kw) ← as_pair "kernel_size" kernel_size;
      '(sh, sw) ← as_pair "strides" strides;
      g ← as_positive_int "groups" groups;
      if negb ((c mod g =? 0) && (f mod g =? 0))
      then Err (ValueError "channels must be divisible by groups")
      else
        oh ← conv_output_length h kh padding sh;
        ow ← conv_output_length w kw padding sw;
        Ok [oh; ow; f]
  | Conv2D _ _ _ _ _ _, _ => Err (ValueError "Conv2D expects ndim=4")
  | MaxPooling2D pool_size, [[h; w; c]] =>
      '(ph, pw) ← as_pair "pool_size" pool_size;
      oh ← conv_output_length h ph "valid" ph;
      ow ← conv_output_length w pw "valid" pw;
      Ok [oh; ow; c]
  | MaxPooling2D _, _ => Err (ValueError "MaxPooling2D expects ndim=4")
  | Dense units activation, [s] =>
      u ← as_units units;
      _ ← check_activation activation;
      match s with
      | [] => Err (ValueError "Dense expects min_ndim=2")
      | _ => Ok (replace_last s u)
      end
  | MultiHeadAttention num_heads key_dim dropout, [q; v] =>
      _ ← as_positive_int "num_heads" num_heads;
      _ ← as_positive_int "key_dim" key_dim;
      _ ← check_rate dropout;
      if (2 <=? length q)%nat && (2 <=? length v)%nat then Ok q
      else Err (ValueError "MultiHeadAttention expects ndim>=3")
  | Activation activation, [s] => _ ← check_activation activation; Ok s
  | Dropout rate, [s] => _ ← check_rate rate; Ok s
  | (BatchNormalization | LayerNormalization), [s] => Ok s
  | _, _ => Err (TypeError "wrong number of layer inputs")
  end.

(** Calling a layer on its input tensors. *)
Definition call (l : layer) (args : list tensor) : result tensor :=
  s ← layer_shape l (shape <$> args);
  Ok (Tensor s (ECall l (node <$> args))).

(** Broadcasting of two shapes, innermost axis first. *)
Fixpoint broadcast_rev (xs ys : list Z) : option (list Z) :=
  match xs, ys with
  | [], _ => Some ys
  | _, [] => Some xs
  | x :: xs', y :: ys' =>
      if x =? y then cons x <$> broadcast_rev xs' ys'
      else if x =? 1 then cons y <$> broadcast_rev xs' ys'
      else if y =? 1 then cons x <$> broadcast_rev xs' ys'
      else None
  end.

(** [a + b] on tensors. *)
Definition tensor_add (a b : tensor) : result tensor :=
  match broadcast_rev (rev (shape a)) (rev (shape b)) with
  | Some s => Ok (Tensor (rev s) (EAdd (node a) (node b)))
  | None => Err (ValueError "shapes are not broadcastable")
  end.

(** [for i in range(n): x = body(i, x)] *)
Fixpoint for_range {A} (body : nat → A → result A) (i n : nat) (x : A) : result A :=
  match n with
  | O => Ok x
  | S n' => x' ← body i x; for_range body (S i) n' x'
  end.

(** ** The block catalog ([modules.py]) *)

(** Each constructor reads its configuration and returns a closure; the
    closure is represented by the record of the variables it captured and
    by the function that runs it on an input tensor. *)

Definition mismatch_msg : string := "len of filters and pool_size do not match".

Definition default_regularizer : value :=
  VDict [("l1", VFloat (Qmake 0 1)); ("l2", VFloat (Qmake 0 1))].

(** The length handling shared by the three convolutional constructors. *)
Definition check_filters (filters pool_size : value) : result value :=
  n ← py_len filters;
  if (n =? 0)%nat then
    m ← py_len pool_size;
    py_mul_int filters (Z.of_nat m)
  else
    m ← py_len pool_size;
    if negb (n =? m)%nat then Err (ValueError mismatch_msg) else Ok filters.

Record conv_env : Type := ConvEnv {
  cv_filters : value;
  cv_pool_size : value;
  cv_dropout_rate : value;
  cv_kernel_regularizer : regularizer
}.

Definition simple_conv_block (model_config : config) : result conv_env :=
  filters ← getitem model_config "filters";
  pool_size ← getitem model_config "pool_size";
  let dropout_rate := get model_config "dropout_rate" (VFloat (Qmake 0 1)) in
  kernel_regularizer ←
    l1_l2 (get model_config "kernel_regularizer" default_regularizer);
  filters ← check_filters filters pool_size;
  Ok (ConvEnv filters pool_size dropout_rate kernel_regularizer).

(** The closure [conv_block] returned by [simple_conv_block]. *)
Definition conv_block (env : conv_env) (inputs : tensor) : result tensor :=
  n ← py_len (cv_filters env);
  for_range (λ i x,
      f ← py_index (cv_filters env) i;
      x ← call (Conv2D f (VInt 3) (VInt 1) "same" (VInt 1)
                       (Some (cv_kernel_regularizer env))) [x];
      x ← call BatchNormalization [x];
      x ← call (Activation (VStr "relu")) [x];
      p ← py_index (cv_pool_size env) i;
      x ← call (MaxPooling2D p) [x];
      call (Dropout (cv_dropout_rate env)) [x])
    0%nat n inputs.

Record dynamic_conv_env : Type := DynamicConvEnv {
  dc_filters : value;
  dc_pool_size : value;
  dc_dropout_rate : value;
  dc_activation : value;
  dc_kernel_regularizer : regularizer
}.

(** The constructor part of [dynamic_conv_block]; its closure applies the
    custom layer [DConv2D] of [layers.py], which is not modelled. *)
Definition dynamic_conv_block (model_config : config) : result dynamic_conv_env :=
  filters ← getitem model_config "filters";
  pool_size ← getitem model_config "pool_size";
  let dropout_rate := get model_config "dropout_rate" (VFloat (Qmake 0 1)) in
  let activation := get model_config "activation" (VStr "softmax") in
  kernel_regularizer ←
    l1_l2 (get model_config "kernel_regularizer" default_regularizer);
  filters ← check_filters filters pool_size;
  Ok (DynamicConvEnv filters pool_size dropout_rate activation kernel_regularizer).

(** The constructor part of [cond_conv_block] (closure over [CondConv2D]). *)
Definition cond_conv_block (model_config : config) : result conv_env :=
  filters ← getitem model_config "filters";
  pool_size ← getitem model_config "pool_size";
  let dropout_rate := get model_config "dropout_rate" (VFloat (Qmake 0 1)) in
  kernel_regularizer ←
    l1_l2 (get model_config "kernel_regularizer" default_regularizer);
  filters ← check_filters filters pool_size;
  Ok (ConvEnv filters pool_size dropout_rate kernel_regularizer).

Record bottleneck_env : Type := BottleneckEnv {
  bn_filters : value;
  bn_strides : value;
  bn_groups : value;
  bn_bottleneck_size : Z;
  bn_activation : value
}.

Definition res_bottleneck_block (model_config : config) : result bottleneck_env :=
  filters ← getitem model_config "filters";
  strides ← getitem model_config "strides";
  groups ← getitem model_config "groups";
  bottleneck_ratio ← getitem model_config "bottleneck_ratio";
  let activation := get model_config "activation" (VStr "relu") in
  let strides := if is_int strides then VTuple [strides; strides] else strides in
  bottleneck_size ← py_int_mul filters bottleneck_ratio;
  Ok (BottleneckEnv filters strides groups bottleneck_size activation).

(** [Conv2D(filters, kernel_size, strides)] with the defaults of the other
    arguments: valid padding, one group, no regularizer. *)
Definition Conv2D_default (filters kernel_size strides : value) : layer :=
  Conv2D filters kernel_size strides "valid" (VInt 1) None.

(** The main path of [bottleneck_block], up to the last normalization. *)
Definition bottleneck_main (env : bottleneck_env) (inputs : tensor) : result tensor :=
  out ← call (Conv2D_default (bn_filters env) (VInt 1) (VInt 1)) [inputs];
  out ← call BatchNormalization [out];
  out ← call (Activation (bn_activation env)) [out];
  out ← call (Conv2D (VInt (bn_bottleneck_size env)) (VInt 3) (bn_strides env)
                     "same" (bn_groups env) None) [out];
  out ← call BatchNormalization [out];
  out ← call (Activation (bn_activation env)) [out];
  out ← call (Conv2D_default (bn_filters env) (VInt 1) (VInt 1)) [out];
  call BatchNormalization [out].

(** [strides != (1, 1) or inputs.shape[-1] != filters] *)
Definition needs_projection (env : bottleneck_env) (inputs : tensor) : bool :=
  negb (py_eq (bn_strides env) (VTuple [VInt 1; VInt 1]))
  || negb (py_eq (shape_last inputs) (bn_filters env)).

(** The shortcut projection layer. *)
Definition shortcut_layer (env : bottleneck_env) : layer :=
  Conv2D_default (bn_filters env) (VInt 1) (bn_strides env).

(** The closure [bottleneck_block] returned by [res_bottleneck_block]. *)
Definition bottleneck_block (env : bottleneck_env) (inputs : tensor) : result tensor :=
  out ← bottleneck_main env inputs;
  inputs ← (if needs_projection env inputs
            then call (shortcut_layer env) [inputs]
            else Ok inputs);
  s ← tensor_add out inputs;
  call (Activation (bn_activation env)) [s].

Record gru_env : Type := GruEnv {
  gr_units_per_layer : value;
  gr_dropout_rate : value
}.

(** The constructor part of [bidirectional_GRU_block]. *)
Definition bidirectional_GRU_block (model_config : config) : result gru_env :=
  units_per_layer ← getitem model_config "units";
  let dropout_rate := get model_config "dropout_rate" (VFloat (Qmake 0 1)) in
  Ok (GruEnv units_per_layer dropout_rate).

Record encoder_env : Type := EncoderEnv {
  en_d_model : value;
  en_n_head : value;
  en_activation : value;
  en_dim_feedforward : value;
  en_dropout_rate : value
}.

Definition transformer_encoder_layer (model_config : config) : result encoder_env :=
  d_model ← getitem model_config "d_model";
  n_head ← getitem model_config "n_head";
  let activation := get model_config "activation" (VStr "relu") in
  widened ← py_mul_int d_model 4;
  let dim_feedforward := get model_config "dim_feedforward" widened in
  let dropout_rate := get model_config "dropout_rate" (VFloat (Qmake 1 10)) in
  Ok (EncoderEnv d_model n_head activation dim_feedforward dropout_rate).

(** The closure [block] returned by [transformer_encoder_layer]. *)
Definition encoder_block (env : encoder_env) (inputs : tensor) : result tensor :=
  if negb (py_eq (shape_last inputs) (en_d_model env)) then Err AssertionError
  else
    let x := inputs in
    key_dim ← py_floordiv (en_d_model env) (en_n_head env);
    attn ← call (MultiHeadAttention (en_n_head env) key_dim (en_dropout_rate env))
                [x; x];
    attn ← call (Dropout (en_dropout_rate env)) [attn];
    s ← tensor_add x attn;
    x ← call LayerNormalization [s];
    ffn ← call (Dense (en_dim_feedforward env) (en_activation env)) [x];
    ffn ← call (Dropout (en_dropout_rate env)) [ffn];
    ffn ← call (Dense (en_d_model env) VNone) [ffn];
    ffn ← call (Dropout (en_dropout_rate env)) [ffn];
    s ← tensor_add x ffn;
    call LayerNormalization [s].

Record dense_env : Type := DenseEnv {
  de_units_per_layer : value;
  de_n_classes : value;
  de_name : value;
  de_activation : value;
  de_dropout_rate : value;
  de_kernel_regularizer : regularizer
}.

(** The constructor part of [simple_dense_block]. *)
Definition simple_dense_block (model_config : config) : result dense_env :=
  units_per_layer ← getitem model_config "units";
  n_classes ← getitem model_config "n_classes";
  let name := get model_config "name" VNone in
  let activation := get model_config "activation" VNone in
  let dropout_rate := get model_config "dropout_rate" (VInt 0) in
  kernel_regularizer ←
    l1_l2 (get model_config "kernel_regularizer" default_regularizer);
  Ok (DenseEnv units_per_layer n_classes name activation dropout_rate
               kernel_regularizer).

Record xception_env : Type := XceptionEnv {
  xc_filters : value;
  xc_block_num : value;
  xc_kernel_regularizer : regularizer
}.

(** The constructor part of [timedistributed_xception_block]. *)
Definition timedistributed_xception_block (model_config : config) : result xception_env :=
  filters ← getitem model_config "filters";
  block_num ← getitem model_config "block_num";
  kernel_regularizer ←
    l1_l2 (get model_config "kernel_regularizer" default_regularizer);
  Ok (XceptionEnv filters block_num kernel_regularizer).

(** ** Configurations as heap objects *)

(** A configuration passed to a function is a reference to a dictionary
    object.  [copy.deepcopy] allocates a new object; item assignment updates
    the object in place, visibly to every holder of the reference. *)
Abbreviation loc := positive.
Abbreviation heap := (gmap positive (gmap string value)).

Definition M (A : Type) : Type := heap → result A * heap.

#[global] Instance M_ret : MRet M := λ A a σ, (Ok a, σ).
#[global] Instance M_bind : MBind M := λ A B k m σ,
  match m σ with
  | (Ok a, σ') => k a σ'
  | (Err e, σ') => (Err e, σ')
  end.

(** A pure, fallible computation inside a stateful one. *)
Definition lift {A} (r : result A) : M A := λ σ, (r, σ).

(** The dictionary a reference points to. *)
Definition deref (σ : heap) (l : loc) : config := default ∅ (σ !! l).

Definition load (l : loc) : M config := λ σ, (Ok (deref σ l), σ).

(** [model_config[key]] through a reference. *)
Definition getitem_ref (l : loc) (key : string) : M value :=
  λ σ, (getitem (deref σ l) key, σ).

(** [model_config[key] = v] *)
Definition setitem (l : loc) (key : string) (v : value) : M unit :=
  λ σ, (Ok tt, <[l := <[key := v]> (deref σ l)]> σ).

(** [copy.deepcopy(model_config)]: values are immutable trees here, so a
    deep copy is a new object with the same contents. *)
Definition deepcopy (l : loc) : M loc :=
  λ σ, let l' := fresh (dom σ) in (Ok l', <[l' := deref σ l]> σ).

Record stage_env : Type := StageEnv {
  sg_depth : value;
  sg_model_config : loc
}.

Definition res_bottleneck_stage (model_config : loc) : M stage_env :=
  depth ← getitem_ref model_config "depth";
  strides ← getitem_ref model_config "strides";
  model_config ← deepcopy model_config;
  mret (StageEnv depth model_config).

(** The body of the loop in [stage], run [n] times. *)
Fixpoint stage_loop (model_config : loc) (n : nat) (x : tensor) : M tensor :=
  match n with
  | O => mret x
  | S n' =>
      cfg ← load model_config;
      x ← lift (env ← res_bottleneck_block cfg; bottleneck_block env x);
      _ ← setitem model_config "strides" (VInt 1);
      stage_loop model_config n' x
  end.

(** The closure [stage] returned by [res_bottleneck_stage]. *)
Definition stage (env : stage_env) (inputs : tensor) : M tensor :=
  n ← lift (py_range (sg_depth env));
  stage_loop (sg_model_config env) n inputs.

(** ** The stage complexity catalog ([stage_complexity.py]) *)

Section StageComplexity.

(** The cost formulas of the primitive layers and the block-level
    complexity functions live in [complexity.py], which is not part of the
    sources; the stage functions are parametric in them.  A block-level
    function is a pure function of the configuration and the shape. *)
Variable conv2d_cost : list Z → Z → Z * Z → cost.
Variable norm_cost : list Z → cost.
Variable pool2d_cost : list Z → Z * Z → Z * Z → cost.
Variables another_conv_block_complexity dense_net_block_complexity
          res_basic_block_complexity res_bottleneck_block_complexity
          sepformer_block_complexity
  : config → list Z → result (cost * list Z).

Definition cx_int (v : value) : result Z :=
  match v with
  | VInt z => Ok z
  | _ => Err (TypeError "an integer is required")
  end.

Definition cx_pair (v : value) : result (Z * Z) :=
  match v with
  | VInt k => Ok (k, k)
  | VList [VInt a; VInt b] | VTuple [VInt a; VInt b] => Ok (a, b)
  | _ => Err (TypeError "an integer or a pair of integers is required")
  end.

(** Modelled from the spec: [conv2d_complexity] of [complexity.py] is
    missing.  The spec gives its contract: the cost depends on the kernel
    size, the channel counts and the spatial size and is accumulated into
    [prev_cx]; under the same-padding assumption the spatial axes are
    unchanged and the channel axis becomes [filters]. *)
Definition conv2d_complexity (input_shape : list Z) (filters kernel_size : value)
    (prev_cx : cost) : result (cost * list Z) :=
  match input_shape with
  | [h; w; c] =>
      f ← cx_int filters;
      k ← cx_pair kernel_size;
      Ok (dict_add prev_cx (conv2d_cost input_shape f k), [h; w; f])
  | _ => Err (ValueError "expected a shape (h, w, c)")
  end.

(** Modelled from the spec: [norm_complexity] of [complexity.py] is
    missing.  Normalization adds a cost and leaves the shape unchanged. *)
Definition norm_complexity (input_shape : list Z) (prev_cx : cost)
    : result (cost * list Z) :=
  Ok (dict_add prev_cx (norm_cost input_shape), input_shape).

(** Modelled from the spec: [pool2d_complexity] of [complexity.py] is
    missing.  Pooling reduces each spatial axis by the pool factor; the
    stride defaults to the pool size when it is [None]. *)
Definition pool2d_complexity (input_shape : list Z) (pool_size strides : value)
    (prev_cx : cost) : result (cost * list Z) :=
  match input_shape with
  | [h; w; c] =>
      '(ph, pw) ← cx_pair pool_size;
      '(sh, sw) ← (match strides with
                   | VNone => Ok (ph, pw)
                   | _ => cx_pair strides
                   end);
      if (sh =? 0) || (sw =? 0) then Err ZeroDivisionError
      else Ok (dict_add prev_cx (pool2d_cost input_shape (ph, pw) (sh, sw)),
               [(h - ph) / sh + 1; (w - pw) / sw + 1; c])
  | _ => Err (ValueError "expected a shape (h, w, c)")
  end.

Definition simple_conv_stage_complexity (model_config : config)
    (input_shape : list Z) : result (cost * list Z) :=
  filters ← getitem model_config "filters";
  depth ← getitem model_config "depth";
  pool_size ← getitem model_config "pool_size";
  let strides := get model_config "strides" VNone in
  n ← py_range depth;
  '(cx, shape) ← for_range (λ _ '(cx, shape),
      '(cx, shape) ← conv2d_complexity shape filters (VInt 3) cx;
      norm_complexity shape cx)
    0%nat n (∅, input_shape);
  pool2d_complexity shape pool_size strides cx.

Definition another_conv_stage_complexity (model_config : config)
    (input_shape : list Z) : result (cost * list Z) :=
  another_conv_block_complexity model_config input_shape.

(** The loop shared by the two residual stages: evaluate the block on the
    current contents of the copied configuration, accumulate its cost,
    and assign 1 to the copy's strides. *)
Fixpoint res_stage_loop (block : config → list Z → result (cost * list Z))
    (model_config : loc) (n : nat) (total_cx : cost) (shape : list Z)
    : M (cost * list Z) :=
  match n with
  | O => mret (total_cx, shape)
  | S n' =>
      cfg ← load model_config;
      '(cx, shape) ← lift (block cfg shape);
      let total_cx := dict_add total_cx cx in
      _ ← setitem model_config "strides" (VInt 1);
      res_stage_loop block model_config n' total_cx shape
  end.

Definition res_basic_stage_complexity (model_config : loc)
    (input_shape : list Z) : M (cost * list Z) :=
  depth ← getitem_ref model_config "depth";
  strides ← getitem_ref model_config "strides";
  model_config ← deepcopy model_config;
  n ← lift (py_range depth);
  res_stage_loop res_basic_block_complexity model_config n ∅ input_shape.

Definition res_bottleneck_stage_complexity (model_config : loc)
    (input_shape : list Z) : M (cost * list Z) :=
  depth ← getitem_ref model_config "depth";
  strides ← getitem_ref model_config "strides";
  model_config ← deepcopy model_config;
  n ← lift (py_range depth);
  res_stage_loop res_bottleneck_block_complexity model_config n ∅ input_shape.

Definition dense_net_stage_complexity (model_config : config)
    (input_shape : list Z) : result (cost * list Z) :=
  dense_net_block_complexity model_config input_shape.

Definition sepformer_stage_complexity (model_config : config)
    (input_shape : list Z) : result (cost * list Z) :=
  depth ← getitem model_config "depth";
  n ← py_range depth;
  for_range (λ _ '(total_cx, shape),
      '(cx, shape) ← sepformer_block_complexity model_config shape;
      Ok (dict_add total_cx cx, shape))
    0%nat n (∅, input_shape).

End StageComplexity.

(** ** The sequential and dense blocks ([modules.py]) *)

(** The closures of [bidirectional_GRU_block] and [simple_dense_block] are
    linear pipelines over sequence tensors.  A sequence tensor is its
    batch-excluded shape together with the layers applied so far, oldest
    first. *)

Inductive seq_layer : Type :=
  | Reshape (target_shape : list Z)
  | BidirectionalGRU (units dropout recurrent_dropout : value)
                     (merge_mode : string)
  | TimeDistributedDense (units activation name : value)
                         (kernel_regularizer : regularizer)
  | SeqDropout (rate : value).

Record seq_tensor : Type := SeqTensor {
  seq_shape : list Z;
  seq_layers : list seq_layer
}.

Definition product (l : list Z) : Z := foldr Z.mul 1 l.

(** [Reshape(target_shape)]: at most one axis may be [-1]; it is inferred
    from the number of elements of the input. *)
Definition reshape_shape (target_shape input_shape : list Z)
    : result (list Z) :=
  let total := product input_shape in
  let known := product (filter (λ d, d ≠ -1) target_shape) in
  let unknown := length (filter (λ d, d = -1) target_shape) in
  if (unknown =? 0)%nat then
    if known =? total then Ok target_shape
    else Err (ValueError "total size of new array must be unchanged")
  else if (unknown =? 1)%nat then
    if (known =? 0) || negb (total mod known =? 0)
    then Err (ValueError "total size of new array must be unchanged")
    else Ok ((λ d, if d =? -1 then total / known else d) <$> target_shape)
  else Err (ValueError "can only specify one unknown dimension").

(** The shape contract of the sequence layers. *)
Definition seq_layer_shape (l : seq_layer) (s : list Z) : result (list Z) :=
  match l with
  | Reshape target_shape => reshape_shape target_shape s
  | BidirectionalGRU units dropout recurrent_dropout merge_mode =>
      u ← as_positive_int "units" units;
      _ ← check_number dropout;
      _ ← check_number recurrent_dropout;
      match s with
      | [t; _] =>
          if t <=? 0 then Err (ValueError "GRU expects at least one timestep")
          else if String.eqb merge_mode "concat" then Ok [t; 2 * u]
          else if String.eqb merge_mode "sum" || String.eqb merge_mode "mul"
                  || String.eqb merge_mode "ave" then Ok [t; u]
          else Err (ValueError "invalid merge mode")
      | _ => Err (ValueError "GRU expects ndim=3")
      end
  | TimeDistributedDense units activation _ _ =>
      u ← as_units units;
      _ ← check_activation activation;
      if (2 <=? length s)%nat then Ok (replace_last s u)
      else Err (ValueError "TimeDistributed expects at least 3 dimensions")
  | SeqDropout rate => _ ← check_rate rate; Ok s
  end.

Definition seq_call (l : seq_layer) (x : seq_tensor) : result seq_tensor :=
  s ← seq_layer_shape l (seq_shape x);
  Ok (SeqTensor s (seq_layers x ++ [l])).

(** The items a [for] loop draws from a value. *)
Definition py_iter (v : value) : result (list value) :=
  match v with
  | VList l | VTuple l => Ok l
  | VStr s => Ok ((λ c, VStr (String c EmptyString)) <$> list_ascii_of_string s)
  | VDict d => Ok ((λ kv, VStr kv.1) <$> d)
  | _ => Err (TypeError "object is not iterable")
  end.

(** [for item in items: x = body(item, x)] *)
Fixpoint for_each {A B} (body : B → A → result A) (items : list B) (x : A)
    : result A :=
  match items with
  | [] => Ok x
  | item :: items' => x' ← body item x; for_each body items' x'
  end.

(** The closure [GRU_block] returned by [bidirectional_GRU_block].  With
    the batch axis, [len(x.shape) == 4] is a batch-excluded rank of 3. *)
Definition GRU_block (env : gru_env) (inputs : seq_tensor) : result seq_tensor :=
  x ← (match seq_shape inputs with
       | [_; freq; chan] => seq_call (Reshape [-1; freq * chan]) inputs
       | _ => Ok inputs
       end);
  units_per_layer ← py_iter (gr_units_per_layer env);
  for_each (λ units x,
      seq_call (BidirectionalGRU units (gr_dropout_rate env)
                  (gr_dropout_rate env) "mul") x)
    units_per_layer x.

(** The closure [dense_block] returned by [simple_dense_block]. *)
Definition dense_block (env : dense_env) (inputs : seq_tensor) : result seq_tensor :=
  units_per_layer ← py_iter (de_units_per_layer env);
  x ← for_each (λ units x,
         x ← seq_call (TimeDistributedDense units VNone VNone
                         (de_kernel_regularizer env)) x;
         seq_call (SeqDropout (de_dropout_rate env)) x)
       units_per_layer inputs;
  seq_call (TimeDistributedDense (de_n_classes env) (de_activation env)
              (de_name env) (de_kernel_regularizer env)) x.

(** ** The residual stage as the spec words it *)

(** Repeat a per-block function over a list of configurations, one per
    iteration: the shape threads through, the costs are accumulated. *)
Fixpoint run_blocks (block : config → list Z → result (cost * list Z))
    (cfgs : list config) (total_cx : cost) (shape : list Z)
    : result (cost * list Z) :=
  match cfgs with
  | [] => Ok (total_cx, shape)
  | cfg :: cfgs' =>
      '(cx, shape) ← block cfg shape;
      run_blocks block cfgs' (dict_add total_cx cx) shape
  end.

(** The configurations of the [depth] iterations: the configured one first,
    then the same with strides forced to 1. *)
Definition stage_configs (cfg : config) (depth : nat) : list config :=
  match depth with
  | O => []
  | S d => cfg :: replicate d (<["strides" := VInt 1]> cfg)
  end.

(** Whether [needle] occurs in [hay]. *)
Fixpoint occurs_in (needle hay : string) : bool :=
  String.prefix needle hay ||
  match hay with
  | EmptyString => false
  | String _ hay' => occurs_in needle hay'
  end.

(** ** Vocabulary of the properties *)

(** A scalar stride [s] stands for the pair [(s, s)]. *)
Definition normalized_strides (strides : value) : value :=
  match strides with
  | VInt s => VTuple [VInt s; VInt s]
  | _ => strides
  end.

Definition unit_strides : value := VTuple [VInt 1; VInt 1].

(** The output adds the shortcut projection of the input to the main path. *)
Definition projected (env : bottleneck_env) (inputs main out : tensor) : Prop :=
  node out = ECall (Activation (bn_activation env))
               [EAdd (node main) (ECall (shortcut_layer env) [node inputs])].

(** The output adds the input itself to the main path. *)
Definition unprojected (env : bottleneck_env) (inputs main out : tensor) : Prop :=
  node out = ECall (Activation (bn_activation env))
               [EAdd (node main) (node inputs)].

Fixpoint expr_size (e : expr) : nat :=
  match e with
  | EInput _ => 1%nat
  | ECall _ args =>
      S ((fix sum (l : list expr) : nat :=
            match l with
            | [] => 0%nat
            | x :: l' => (expr_size x + sum l')%nat
            end) args)
  | EAdd a b => S (expr_size a + expr_size b)
  end.

(** The first of a function's mandatory keys, in the order the function
    looks them up, that the configuration lacks. *)
Fixpoint first_missing (keys : list string) (cfg : config) : option string :=
  match keys with
  | [] => None
  | key :: keys' =>
      match cfg !! key with
      | None => Some key
      | Some _ => first_missing keys' cfg
      end
  end.

(** A configuration from which [res_bottleneck_block] builds a usable
    block: [f] filters in [g] groups, bottleneck width [b], strides
    [(sh, sw)], and an activation that Keras knows. *)
Definition valid_bottleneck (cfg : config) (f g b sh sw : Z) : Prop :=
  ∃ strides ratio,
    cfg !! "filters" = Some (VInt f) ∧
    cfg !! "strides" = Some strides ∧
    cfg !! "groups" = Some (VInt g) ∧
    cfg !! "bottleneck_ratio" = Some ratio ∧
    py_int_mul (VInt f) ratio = Ok b ∧
    as_pair "strides" (normalized_strides strides) = Ok (sh, sw) ∧
    0 < f ∧ 0 < g ∧ 0 < b ∧ f mod g = 0 ∧ b mod g = 0 ∧
    check_activation (get cfg "activation" (VStr "relu")) = Ok tt.

(** What a residual stage function may leave in the heap [σ'] when called
    on the heap [σ] with a configuration of contents [cfg]: nothing, or one
    new object, which holds [cfg] or [cfg] with strides 1. *)
Definition stage_footprint (σ σ' : heap) (cfg : config) : Prop :=
  σ' = σ ∨ σ' = <[fresh (dom σ) := cfg]> σ ∨
  σ' = <[fresh (dom σ) := <["strides" := VInt 1]> cfg]> σ.

(** ** Example configurations *)

(** A symbolic input tensor of the given shape. *)
Definition input_of (s : list Z) : tensor := Tensor s (EInput 0).

(** The tensor a pipeline returned, or [d] if it raised. *)
Definition returned (r : result tensor) (d : tensor) : tensor :=
  match r with
  | Ok t => t
  | Err _ => d
  end.

(** A bottleneck block with scalar strides 1 and 8 filters. *)
Definition bottleneck_config : config :=
  <["filters" := VInt 8]> (<["strides" := VInt 1]> (<["groups" := VInt 2]>
    (<["bottleneck_ratio" := VFloat (Qmake 1 2)]> ∅))).

Definition bottleneck_example_env : bottleneck_env :=
  BottleneckEnv (VInt 8) (VTuple [VInt 1; VInt 1]) (VInt 2) 4 (VStr "relu").

(** A residual stage of depth 3 with strides 2. *)
Definition stage_config : config :=
  <["depth" := VInt 3]> (<["strides" := VInt 2]> (<["filters" := VInt 8]>
    (<["groups" := VInt 2]> (<["bottleneck_ratio" := VFloat (Qmake 1 2)]> ∅)))).

(** The heap of a caller that holds [stage_config] at location 1. *)
Definition stage_heap : heap := {[ 1%positive := stage_config ]}.

(** A block-level complexity function that counts its calls and, among
    them, those that saw strides 2; it halves the spatial axes then. *)
Definition counting_block (cfg : config) (shape : list Z)
    : result (cost * list Z) :=
  match cfg !! "strides", shape with
  | Some (VInt 2), [h; w; c] =>
      Ok (<["blocks" := 1]> {["strided" := 1]}, [h / 2; w / 2; c])
  | _, _ => Ok ({["blocks" := 1]}, shape)
  end.

(** The simple convolutional configuration of the spec's examples. *)
Definition simple_conv_config : config :=
  <["filters" := VList [VInt 16; VInt 32]]>
    (<["pool_size" := VList [VInt 2; VInt 2]]> ∅).

(** Three filters against two pool sizes. *)
Definition mismatched_config : config :=
  <["filters" := VList [VInt 16; VInt 32; VInt 64]]>
    (<["pool_size" := VList [VInt 2; VInt 2]]> ∅).

(** No filters against three pool sizes. *)
Definition empty_filters_config : config :=
  <["filters" := VList []]>
    (<["pool_size" := VList [VInt 2; VInt 2; VInt 2]]> ∅).

(** Sample cost formulas: parameters and multiply-accumulates of a
    convolution, parameters of a normalization, nothing for pooling. *)
Definition sample_conv2d_cost (input_shape : list Z) (filters : Z)
    (kernel : Z * Z) : cost :=
  match input_shape with
  | [h; w; c] =>
      <["params" := kernel.1 * kernel.2 * c * filters + filters]>
        {["macs" := h * w * kernel.1 * kernel.2 * c * filters]}
  | _ => ∅
  end.

Definition sample_norm_cost (input_shape : list Z) : cost :=
  match last input_shape with
  | Some c => {["params" := 2 * c]}
  | None => ∅
  end.

Definition sample_pool2d_cost (input_shape : list Z) (pool strides : Z * Z)
    : cost := ∅.

Definition is_pooling (l : layer) : bool :=
  match l with
  | MaxPooling2D _ => true
  | _ => false
  end.

(** The number of layer calls satisfying [p] in an expression. *)
Fixpoint count_layers (p : layer → bool) (e : expr) : nat :=
  match e with
  | EInput _ => 0%nat
  | ECall l args =>
      ((if p l then 1 else 0) +
       (fix sum (es : list expr) : nat :=
          match es with
          | [] => 0
          | x :: es' => count_layers p x + sum es'
          end) args)%nat
  | EAdd a b => (count_layers p a + count_layers p b)%nat
  end.

(** A transformer encoder layer of width 64 with 8 heads. *)
Definition encoder_config : config :=
  <["d_model" := VInt 64]> (<["n_head" := VInt 8]> ∅).

Definition encoder_example_env : encoder_env :=
  EncoderEnv (VInt 64) (VInt 8) (VStr "relu") (VInt 256)
             (VFloat (Qmake 1 10)).

(** * Properties *)

(** ** The cost accumulator *)

Lemma dict_add_lookup (a b : cost) (k : string) :
  dict_add a b !! k =
    match a !! k, b !! k with
    | Some x, Some y => Some (x + y)
    | Some x, None => Some x
    | None, o => o
    end.
Proof.
  unfold dict_add. rewrite lookup_union_with.
  by destruct (a !! k), (b !! k).
Qed.

Lemma dict_add_comm (a b : cost) : dict_add a b = dict_add b a.
Proof.
  apply map_eq; intros k. rewrite !dict_add_lookup.
  destruct (a !! k), (b !! k); f_equal; lia.
Qed.

Lemma dict_add_assoc (a b c : cost) :
  dict_add a (dict_add b c) = dict_add (dict_add a b) c.
Proof.
  apply map_eq; intros k. rewrite !dict_add_lookup.
  destruct (a !! k), (b !! k), (c !! k); f_equal; lia.
Qed.

Lemma dict_add_empty_r (a : cost) : dict_add a ∅ = a.
Proof.
  apply map_eq; intros k. rewrite dict_add_lookup, lookup_empty.
  by destruct (a !! k).
Qed.

Lemma dict_add_empty_l (a : cost) : dict_add ∅ a = a.
Proof. rewrite dict_add_comm. apply dict_add_empty_r. Qed.

Lemma dict_add_amount (a b : cost) (k : string) :
  amount (dict_add a b) k = amount a k + amount b k.
Proof.
  unfold amount. rewrite dict_add_lookup.
  destruct (a !! k), (b !! k); simpl; lia.
Qed.

Lemma dict_add_dom (a b : cost) : dom (dict_add a b) = dom a ∪ dom b.
Proof.
  apply set_eq; intros k.
  rewrite elem_of_union, !elem_of_dom, dict_add_lookup.
  destruct (a !! k), (b !! k); split; intros H; eauto;
    destruct H as [[? H]|[? H]]; discriminate H.
Qed.

(** C7.  The cost accumulator is commutative and associative, the empty
    record is its identity, and the result has exactly the keys of either
    input, each with the sum of the two amounts (an absent key counting as
    zero). *)
Theorem C7_dict_add_monoid :
  (∀ a b : cost, dict_add a b = dict_add b a) ∧
  (∀ a b c : cost, dict_add a (dict_add b c) = dict_add (dict_add a b) c) ∧
  (∀ a : cost, dict_add a ∅ = a) ∧
  (∀ (a b : cost) (k : string),
     amount (dict_add a b) k = amount a k + amount b k) ∧
  (∀ a b : cost, dom (dict_add a b) = dom a ∪ dom b).
Proof.
  split; [exact dict_add_comm|].
  split; [exact dict_add_assoc|].
  split; [exact dict_add_empty_r|].
  split; [exact dict_add_amount | exact dict_add_dom].
Qed.

(** ** Reasoning about fallible code *)

Lemma bind_Ok {A B} (r : result A) (k : A → result B) (b : B) :
  r ≫= k = Ok b → ∃ a, r = Ok a ∧ k a = Ok b.
Proof. destruct r as [a|e]; [eauto | discriminate]. Qed.

Lemma bind_intro {A B} (r : result A) (k : A → result B) (a : A) (b : B) :
  r = Ok a → k a = Ok b → r ≫= k = Ok b.
Proof. by intros -> <-. Qed.

Lemma getitem_Ok (cfg : config) (key : string) (v : value) :
  getitem cfg key = Ok v ↔ cfg !! key = Some v.
Proof. unfold getitem. destruct (cfg !! key); split; congruence. Qed.

Lemma getitem_missing (cfg : config) (key : string) :
  cfg !! key = None → getitem cfg key = Err (KeyError key).
Proof. unfold getitem. by intros ->. Qed.

(** A layer call that returns yields a tensor of the shape the layer's
    contract gives, built by that call. *)
Lemma call_Ok (l : layer) (args : list tensor) (out : tensor) :
  call l args = Ok out →
  layer_shape l (shape <$> args) = Ok (shape out) ∧
  node out = ECall l (node <$> args).
Proof.
  unfold call. intros H. apply bind_Ok in H as (s & Hs & H).
  by injection H as <-.
Qed.

(** ** The residual bottleneck block *)

(** The bottleneck width is the float product, rounded, then truncated:
    [10 * 0.7] is the float 7.0 although the float 0.7 lies below 7/10, and
    [100 * 0.29] is a float below 29. *)
Example bottleneck_width_rounding :
  py_int_mul (VInt 10) (VFloat (Qmake 7 10)) = Ok 7 ∧
  py_int_mul (VInt 70) (VFloat (Qmake 7 10)) = Ok 49 ∧
  py_int_mul (VInt 100) (VFloat (Qmake 29 100)) = Ok 28 ∧
  py_int_mul (VInt 8) (VFloat (Qmake 1 2)) = Ok 4 ∧
  py_int_mul (VInt (2 ^ 1024)) (VFloat (Qmake 1 2)) = Err OverflowError.
Proof. repeat split; vm_compute; reflexivity. Qed.

Lemma expr_call_neq (l : layer) (e : expr) : e ≠ ECall l [e].
Proof.
  intros H. apply (f_equal expr_size) in H. simpl in H. lia.
Qed.

Lemma bottleneck_block_node (env : bottleneck_env) (inputs out : tensor) :
  bottleneck_block env inputs = Ok out →
  ∃ main, bottleneck_main env inputs = Ok main ∧
    if needs_projection env inputs
    then projected env inputs main out
    else unprojected env inputs main out.
Proof.
  unfold bottleneck_block. intros H.
  apply bind_Ok in H as (main & Hmain & H). exists main. split; [done|].
  apply bind_Ok in H as (sc & Hsc & H).
  apply bind_Ok in H as (s & Hs & H).
  apply call_Ok in H as [_ Hnode].
  unfold tensor_add in Hs.
  destruct (broadcast_rev _ _); [|discriminate]. injection Hs as <-.
  unfold projected, unprojected. rewrite Hnode.
  destruct (needs_projection env inputs); simpl.
  - apply call_Ok in Hsc as [_ ->]. done.
  - injection Hsc as <-. done.
Qed.

Lemma projected_unprojected_excl (env : bottleneck_env) (inputs main out : tensor) :
  projected env inputs main out → unprojected env inputs main out → False.
Proof.
  unfold projected, unprojected. intros Hp Hu. rewrite Hp in Hu.
  injection Hu as Hu. symmetry in Hu. by apply expr_call_neq in Hu.
Qed.

Lemma res_bottleneck_block_env (cfg : config) (env : bottleneck_env) :
  res_bottleneck_block cfg = Ok env →
  ∃ filters strides groups ratio,
    cfg !! "filters" = Some filters ∧ cfg !! "strides" = Some strides ∧
    cfg !! "groups" = Some groups ∧ cfg !! "bottleneck_ratio" = Some ratio ∧
    bn_filters env = filters ∧ bn_strides env = normalized_strides strides ∧
    bn_groups env = groups ∧
    py_int_mul filters ratio = Ok (bn_bottleneck_size env) ∧
    bn_activation env = get cfg "activation" (VStr "relu").
Proof.
  unfold res_bottleneck_block. intros H.
  apply bind_Ok in H as (filters & Hf & H).
  apply bind_Ok in H as (strides & Hs & H).
  apply bind_Ok in H as (groups & Hg & H).
  apply bind_Ok in H as (ratio & Hr & H).
  apply bind_Ok in H as (size & Hsize & H).
  injection H as <-. simpl.
  exists filters, strides, groups, ratio.
  rewrite getitem_Ok in Hf, Hs, Hg, Hr.
  repeat split; try done. by destruct strides.
Qed.

(** C2.  In the residual bottleneck block the shortcut projection is applied
    to the input if and only if the strides, a scalar [s] read as [(s, s)],
    differ from [(1, 1)] or the last axis of the input differs from
    [filters]; otherwise the input itself is added to the main path.  In
    particular for integer strides [s], filters [f] and [c] input channels
    the projection is applied exactly when [s ≠ 1] or [c ≠ f]. *)
Theorem C2_shortcut_projection
    (cfg : config) (env : bottleneck_env) (inputs out : tensor) :
  res_bottleneck_block cfg = Ok env →
  bottleneck_block env inputs = Ok out →
  ∃ strides filters main,
    cfg !! "strides" = Some strides ∧ cfg !! "filters" = Some filters ∧
    bottleneck_main env inputs = Ok main ∧
    shortcut_layer env =
      Conv2D_default filters (VInt 1) (normalized_strides strides) ∧
    (projected env inputs main out ↔
       py_eq (normalized_strides strides) unit_strides = false ∨
       py_eq (shape_last inputs) filters = false) ∧
    (unprojected env inputs main out ↔
       py_eq (normalized_strides strides) unit_strides = true ∧
       py_eq (shape_last inputs) filters = true) ∧
    (∀ s f c : Z,
       strides = VInt s → filters = VInt f → shape_last inputs = VInt c →
       (projected env inputs main out ↔ s ≠ 1 ∨ c ≠ f) ∧
       (unprojected env inputs main out ↔ s = 1 ∧ c = f)).
Proof.
  intros Henv Hout.
  apply res_bottleneck_block_env in Henv
    as (filters & strides & groups & ratio & Hf & Hs & _ & _ & Ef & Es & _).
  apply bottleneck_block_node in Hout as (main & Hmain & Hnode).
  exists strides, filters, main.
  assert (Hneeds : needs_projection env inputs =
            negb (py_eq (normalized_strides strides) unit_strides)
            || negb (py_eq (shape_last inputs) filters)).
  { unfold needs_projection. by rewrite Es, Ef. }
  rewrite Hneeds in Hnode.
  pose proof (projected_unprojected_excl env inputs main out) as Hex.
  assert (Hscalar : ∀ s, py_eq (normalized_strides (VInt s)) unit_strides
                         = (s =? 1)).
  { intros s. simpl. by destruct (s =? 1). }
  split; [done|]. split; [done|]. split; [done|].
  split; [unfold shortcut_layer; by rewrite Ef, Es|].
  assert (Hproj : projected env inputs main out ↔
            py_eq (normalized_strides strides) unit_strides = false ∨
            py_eq (shape_last inputs) filters = false).
  { destruct (py_eq (normalized_strides strides) unit_strides),
      (py_eq (shape_last inputs) filters); simpl in Hnode;
      split; intros H; auto; try (by destruct (Hex H Hnode)).
    destruct H; discriminate. }
  assert (Hunproj : unprojected env inputs main out ↔
            py_eq (normalized_strides strides) unit_strides = true ∧
            py_eq (shape_last inputs) filters = true).
  { destruct (py_eq (normalized_strides strides) unit_strides),
      (py_eq (shape_last inputs) filters); simpl in Hnode;
      split; intros H; auto; try (by destruct (Hex Hnode H));
      destruct H; discriminate. }
  split; [exact Hproj|]. split; [exact Hunproj|].
  intros s f c -> -> Hc. rewrite Hproj, Hunproj, Hscalar, Hc. simpl.
  rewrite !Z.eqb_neq, !Z.eqb_eq. done.
Qed.

Lemma C2_shortcut_projection_witness :
  let env := bottleneck_example_env in
  let inputs := input_of [64; 64; 8] in
  let out := returned (bottleneck_block env inputs) inputs in
  ∃ strides filters main,
    bottleneck_config !! "strides" = Some strides ∧
    bottleneck_config !! "filters" = Some filters ∧
    bottleneck_main env inputs = Ok main ∧
    shortcut_layer env =
      Conv2D_default filters (VInt 1) (normalized_strides strides) ∧
    (projected env inputs main out ↔
       py_eq (normalized_strides strides) unit_strides = false ∨
       py_eq (shape_last inputs) filters = false) ∧
    (unprojected env inputs main out ↔
       py_eq (normalized_strides strides) unit_strides = true ∧
       py_eq (shape_last inputs) filters = true) ∧
    (∀ s f c : Z,
       strides = VInt s → filters = VInt f → shape_last inputs = VInt c →
       (projected env inputs main out ↔ s ≠ 1 ∨ c ≠ f) ∧
       (unprojected env inputs main out ↔ s = 1 ∧ c = f)).
Proof.
  apply (C2_shortcut_projection bottleneck_config bottleneck_example_env
           (input_of [64; 64; 8])); vm_compute; reflexivity.
Defined.

(** ** The residual stages *)

Lemma M_bind_run {A B} (m : M A) (k : A → M B) (σ : heap) :
  (m ≫= k) σ =
    match m σ with
    | (Ok a, σ') => k a σ'
    | (Err e, σ') => (Err e, σ')
    end.
Proof. reflexivity. Qed.

Lemma deref_lookup (σ : heap) (l : loc) (cfg : config) :
  σ !! l = Some cfg → deref σ l = cfg.
Proof. unfold deref. by intros ->. Qed.

Lemma deref_insert (σ : heap) (l : loc) (cfg : config) :
  deref (<[l := cfg]> σ) l = cfg.
Proof. unfold deref. by rewrite lookup_insert_eq. Qed.

Lemma fresh_loc_ne (σ : heap) (l : loc) (cfg : config) :
  σ !! l = Some cfg → fresh (dom σ) ≠ l.
Proof.
  intros Hl Heq. apply (is_fresh (dom σ)). rewrite Heq.
  apply elem_of_dom. by exists cfg.
Qed.

Lemma stage_configs_length (cfg : config) (depth : nat) :
  length (stage_configs cfg depth) = depth.
Proof. destruct depth; simpl; [done|]. by rewrite length_replicate. Qed.

Lemma stage_configs_later (cfg : config) (depth i : nat) :
  (0 < i < depth)%nat →
  stage_configs cfg depth !! i = Some (<["strides" := VInt 1]> cfg).
Proof.
  intros [Hi Hd]. destruct depth as [|d]; [lia|]. destruct i as [|i]; [lia|].
  simpl. apply lookup_replicate_2. lia.
Qed.

Section ResidualStage.

Variable block : config → list Z → result (cost * list Z).

(** Once the strides of the copy are 1, assigning 1 again changes
    nothing: all remaining iterations see the same configuration. *)
Lemma res_stage_loop_settled (l : loc) (n : nat) (cfg : config) :
  <["strides" := VInt 1]> cfg = cfg →
  ∀ (σ : heap) (total_cx : cost) (shape : list Z),
    deref σ l = cfg →
    (res_stage_loop block l n total_cx shape σ).1 =
      run_blocks block (replicate n cfg) total_cx shape.
Proof.
  intros Hcfg. induction n as [|n IH]; intros σ total_cx shape Hσ; [done|].
  simpl. rewrite M_bind_run. unfold load at 1. simpl. rewrite Hσ.
  rewrite M_bind_run. unfold lift at 1.
  destruct (block cfg shape) as [[cx shape']|e]; simpl; [|done].
  apply IH. by rewrite deref_insert, Hσ.
Qed.

Lemma res_stage_loop_run (l : loc) (n : nat) (cfg : config)
    (σ : heap) (total_cx : cost) (shape : list Z) :
  deref σ l = cfg →
  (res_stage_loop block l n total_cx shape σ).1 =
    run_blocks block (stage_configs cfg n) total_cx shape.
Proof.
  intros Hσ. destruct n as [|n]; [done|].
  simpl. rewrite M_bind_run. unfold load at 1. simpl. rewrite Hσ.
  rewrite M_bind_run. unfold lift at 1.
  destruct (block cfg shape) as [[cx shape']|e]; simpl; [|done].
  apply res_stage_loop_settled.
  - apply insert_insert_eq.
  - by rewrite deref_insert, Hσ.
Qed.

(** The loop writes only to the object it was given. *)
Lemma res_stage_loop_frame (l l' : loc) (n : nat) :
  l' ≠ l →
  ∀ (σ : heap) (total_cx : cost) (shape : list Z),
    (res_stage_loop block l' n total_cx shape σ).2 !! l = σ !! l.
Proof.
  intros Hne. induction n as [|n IH]; intros σ total_cx shape; [done|].
  simpl. rewrite M_bind_run. unfold load at 1. simpl.
  rewrite M_bind_run. unfold lift at 1.
  destruct (block (deref σ l') shape) as [[cx shape']|e]; simpl; [|done].
  rewrite M_bind_run. unfold setitem at 1.
  rewrite IH. by apply lookup_insert_ne.
Qed.

End ResidualStage.

(** The body shared by [res_basic_stage_complexity] and
    [res_bottleneck_stage_complexity], for a given block function. *)
Lemma res_stage_run (block : config → list Z → result (cost * list Z))
    (σ : heap) (l : loc) (cfg : config) (depth : Z) (strides : value)
    (shape : list Z) :
  σ !! l = Some cfg →
  cfg !! "depth" = Some (VInt depth) →
  cfg !! "strides" = Some strides →
  (res_basic_stage_complexity block l shape σ).1 =
    run_blocks block (stage_configs cfg (Z.to_nat depth)) ∅ shape.
Proof.
  intros Hl Hd Hs. unfold res_basic_stage_complexity.
  rewrite M_bind_run. unfold getitem_ref at 1.
  rewrite (deref_lookup _ _ _ Hl). unfold getitem at 1. rewrite Hd.
  rewrite M_bind_run. unfold getitem_ref at 1.
  rewrite (deref_lookup _ _ _ Hl). unfold getitem at 1. rewrite Hs.
  rewrite M_bind_run. unfold deepcopy at 1. cbv zeta.
  rewrite M_bind_run. unfold lift at 1, py_range.
  apply res_stage_loop_run. rewrite deref_insert. by apply deref_lookup.
Qed.

Lemma res_stage_frame (block : config → list Z → result (cost * list Z))
    (σ : heap) (l : loc) (cfg : config) (shape : list Z) :
  σ !! l = Some cfg →
  (res_basic_stage_complexity block l shape σ).2 !! l = Some cfg.
Proof.
  intros Hl. unfold res_basic_stage_complexity.
  rewrite M_bind_run. unfold getitem_ref at 1.
  destruct (getitem (deref σ l) "depth") as [depth|e]; [|done].
  rewrite M_bind_run. unfold getitem_ref at 1.
  destruct (getitem (deref σ l) "strides") as [strides|e]; [|done].
  rewrite M_bind_run. unfold deepcopy at 1. cbv zeta.
  rewrite M_bind_run. unfold lift at 1.
  pose proof (fresh_loc_ne σ l cfg Hl) as Hne.
  destruct (py_range depth) as [n|e].
  - rewrite res_stage_loop_frame by done. by rewrite lookup_insert_ne.
  - simpl. by rewrite lookup_insert_ne.
Qed.

(** C3.  For a configuration with depth at least 1, each of the two residual
    stage functions returns what is obtained by evaluating the block
    function once per entry of a list of [depth] configurations, threading
    the shape and accumulating the cost records with [dict_add] from the
    empty record; the first entry is the caller's configuration, with its
    configured strides, and every later entry is that configuration with
    strides set to 1. *)
Theorem C3_residual_stage_iterations
    (basic_block bottleneck_block_cx : config → list Z → result (cost * list Z))
    (σ : heap) (l : loc) (cfg : config) (depth : Z) (strides : value)
    (shape : list Z) :
  σ !! l = Some cfg →
  cfg !! "depth" = Some (VInt depth) →
  cfg !! "strides" = Some strides →
  1 ≤ depth →
  let cfgs := stage_configs cfg (Z.to_nat depth) in
  (res_basic_stage_complexity basic_block l shape σ).1 =
    run_blocks basic_block cfgs ∅ shape ∧
  (res_bottleneck_stage_complexity bottleneck_block_cx l shape σ).1 =
    run_blocks bottleneck_block_cx cfgs ∅ shape ∧
  length cfgs = Z.to_nat depth ∧
  cfgs !! 0%nat = Some cfg ∧
  (∀ i : nat, (0 < i < Z.to_nat depth)%nat →
     cfgs !! i = Some (<["strides" := VInt 1]> cfg)).
Proof.
  intros Hl Hd Hs Hdepth cfgs. subst cfgs.
  split; [by eapply res_stage_run|].
  split; [by eapply (res_stage_run bottleneck_block_cx)|].
  split; [apply stage_configs_length|].
  split; [|by apply stage_configs_later].
  destruct (Z.to_nat depth) eqn:E; [lia|done].
Qed.

Lemma C3_residual_stage_iterations_witness :
  let cfgs := stage_configs stage_config (Z.to_nat 3) in
  (res_basic_stage_complexity counting_block 1%positive [64; 64; 3]
     stage_heap).1 = run_blocks counting_block cfgs ∅ [64; 64; 3] ∧
  (res_bottleneck_stage_complexity counting_block 1%positive [64; 64; 3]
     stage_heap).1 = run_blocks counting_block cfgs ∅ [64; 64; 3] ∧
  length cfgs = Z.to_nat 3 ∧
  cfgs !! 0%nat = Some stage_config ∧
  (∀ i : nat, (0 < i < Z.to_nat 3)%nat →
     cfgs !! i = Some (<["strides" := VInt 1]> stage_config)).
Proof.
  apply (C3_residual_stage_iterations counting_block counting_block
           stage_heap 1%positive stage_config 3 (VInt 2) [64; 64; 3]);
    [reflexivity | reflexivity | reflexivity | lia].
Defined.

(** Only the first of the three blocks sees strides 2. *)
Example residual_stage_example :
  (res_bottleneck_stage_complexity counting_block 1%positive [64; 64; 3]
     stage_heap).1
  = Ok (<["blocks" := 3]> {["strided" := 1]}, [32; 32; 3]).
Proof. vm_compute. reflexivity. Qed.

(** ** The caller's configuration *)

Lemma stage_loop_frame (l l' : loc) (n : nat) :
  l' ≠ l →
  ∀ (σ : heap) (x : tensor), (stage_loop l' n x σ).2 !! l = σ !! l.
Proof.
  intros Hne. induction n as [|n IH]; intros σ x; [done|].
  simpl. rewrite M_bind_run. unfold load at 1.
  rewrite M_bind_run. unfold lift at 1.
  destruct (res_bottleneck_block (deref σ l') ≫= _) as [x'|e]; [|done].
  rewrite M_bind_run. unfold setitem at 1.
  rewrite IH. by apply lookup_insert_ne.
Qed.

Lemma stage_frame (env : stage_env) (l : loc) (σ : heap) (inputs : tensor) :
  sg_model_config env ≠ l → (stage env inputs σ).2 !! l = σ !! l.
Proof.
  intros Hne. unfold stage. rewrite M_bind_run. unfold lift at 1.
  destruct (py_range (sg_depth env)) as [n|e]; [|done].
  by apply stage_loop_frame.
Qed.

Lemma res_bottleneck_stage_frame (σ σ' : heap) (l : loc) (cfg : config)
    (r : result stage_env) :
  σ !! l = Some cfg →
  res_bottleneck_stage l σ = (r, σ') →
  σ' !! l = Some cfg ∧ ∀ env, r = Ok env → sg_model_config env ≠ l.
Proof.
  intros Hl. unfold res_bottleneck_stage.
  rewrite M_bind_run. unfold getitem_ref at 1.
  destruct (getitem (deref σ l) "depth") as [depth|e];
    [|intros [= <- <-]; split; [done|discriminate]].
  rewrite M_bind_run. unfold getitem_ref at 1.
  destruct (getitem (deref σ l) "strides") as [strides|e];
    [|intros [= <- <-]; split; [done|discriminate]].
  rewrite M_bind_run. unfold deepcopy at 1. cbv zeta.
  pose proof (fresh_loc_ne σ l cfg Hl) as Hne.
  intros [= <- <-]. split.
  - by rewrite lookup_insert_ne.
  - by intros env [= <-].
Qed.

(** C4.  Calling a residual stage function leaves the dictionary the caller
    passed unmodified, whether the call returns or raises: this holds for
    the two stage complexity functions, for the constructor
    [res_bottleneck_stage], and for every later run of the closure it
    returned, on any heap. *)
Theorem C4_caller_config_unmodified
    (basic_block bottleneck_block_cx : config → list Z → result (cost * list Z))
    (σ : heap) (l : loc) (cfg : config) (shape : list Z) :
  σ !! l = Some cfg →
  (res_basic_stage_complexity basic_block l shape σ).2 !! l = Some cfg ∧
  (res_bottleneck_stage_complexity bottleneck_block_cx l shape σ).2 !! l
    = Some cfg ∧
  (res_bottleneck_stage l σ).2 !! l = Some cfg ∧
  (∀ env : stage_env, (res_bottleneck_stage l σ).1 = Ok env →
     ∀ (σ' : heap) (inputs : tensor),
       (stage env inputs σ').2 !! l = σ' !! l).
Proof.
  intros Hl.
  split; [by apply res_stage_frame|].
  split; [by apply (res_stage_frame bottleneck_block_cx)|].
  destruct (res_bottleneck_stage l σ) as [r σ1] eqn:E.
  destruct (res_bottleneck_stage_frame σ σ1 l cfg r Hl E) as [Hσ Henv].
  split; [done|].
  intros env Hok σ' inputs. apply stage_frame. by apply Henv.
Qed.

Lemma C4_caller_config_unmodified_witness :
  (res_basic_stage_complexity counting_block 1%positive [64; 64; 3]
     stage_heap).2 !! 1%positive = Some stage_config ∧
  (res_bottleneck_stage_complexity counting_block 1%positive [64; 64; 3]
     stage_heap).2 !! 1%positive = Some stage_config ∧
  (res_bottleneck_stage 1%positive stage_heap).2 !! 1%positive
    = Some stage_config ∧
  (∀ env : stage_env, (res_bottleneck_stage 1%positive stage_heap).1 = Ok env →
     ∀ (σ' : heap) (inputs : tensor),
       (stage env inputs σ').2 !! 1%positive = σ' !! 1%positive).
Proof.
  apply (C4_caller_config_unmodified counting_block counting_block
           stage_heap 1%positive stage_config [64; 64; 3]).
  reflexivity.
Defined.

(** ** Mandatory and optional keys *)

(** Walk through the mandatory lookups of a pure constructor. *)
Ltac missing_key H :=
  simpl in H; unfold getitem;
  repeat match type of H with
         | context [?cfg !! ?key] =>
             destruct (cfg !! key) eqn:?; [simpl | by injection H as <-]
         end;
  discriminate H.

Lemma res_stage_missing (block : config → list Z → result (cost * list Z))
    (σ : heap) (l : loc) (cfg : config) (key : string) (shape : list Z) :
  σ !! l = Some cfg →
  first_missing ["depth"; "strides"] cfg = Some key →
  res_basic_stage_complexity block l shape σ = (Err (KeyError key), σ).
Proof.
  intros Hl%deref_lookup H. unfold res_basic_stage_complexity.
  rewrite M_bind_run. unfold getitem_ref at 1. rewrite Hl.
  simpl in H. unfold getitem at 1.
  destruct (cfg !! "depth"); [|by injection H as <-].
  rewrite M_bind_run. unfold getitem_ref at 1. rewrite Hl.
  unfold getitem at 1.
  destruct (cfg !! "strides"); [discriminate H|by injection H as <-].
Qed.

Lemma res_bottleneck_stage_missing (σ : heap) (l : loc) (cfg : config)
    (key : string) :
  σ !! l = Some cfg →
  first_missing ["depth"; "strides"] cfg = Some key →
  res_bottleneck_stage l σ = (Err (KeyError key), σ).
Proof.
  intros Hl%deref_lookup H. unfold res_bottleneck_stage.
  rewrite M_bind_run. unfold getitem_ref at 1. rewrite Hl.
  simpl in H. unfold getitem at 1.
  destruct (cfg !! "depth"); [|by injection H as <-].
  rewrite M_bind_run. unfold getitem_ref at 1. rewrite Hl.
  unfold getitem at 1.
  destruct (cfg !! "strides"); [discriminate H|by injection H as <-].
Qed.

Lemma get_default (cfg : config) (key : string) (d : value) :
  cfg !! key = None → get cfg key d = d.
Proof. unfold get. by intros ->. Qed.

Lemma get_insert_ne (cfg : config) (key key' : string) (v d : value) :
  key ≠ key' → get (<[key := v]> cfg) key' d = get cfg key' d.
Proof. intros H. unfold get. by rewrite lookup_insert_ne. Qed.

Lemma getitem_insert_ne (cfg : config) (key key' : string) (v : value) :
  key ≠ key' → getitem (<[key := v]> cfg) key' = getitem cfg key'.
Proof. intros H. unfold getitem. by rewrite lookup_insert_ne. Qed.

Lemma get_insert (cfg : config) (key : string) (v d : value) :
  get (<[key := v]> cfg) key d = v.
Proof. unfold get. by rewrite lookup_insert_eq. Qed.

(** Replace the lookups of a configuration extended with the default of
    an absent optional key by the lookups of the configuration itself. *)
Ltac optional_key H :=
  unfold get, getitem;
  rewrite ?lookup_insert_eq, ?lookup_insert_ne by done;
  rewrite ?H; reflexivity.

(** C8.  Every stage complexity function and block constructor with
    mandatory keys raises [KeyError] for the first mandatory key, in lookup
    order, that the configuration lacks, and nothing else happens (a
    stateful function leaves the heap as it was); every optional key of
    every function, when absent, behaves exactly as if it were present
    with its default: [strides] in the simple convolutional stage,
    [dropout_rate], [activation], [kernel_regularizer], [name] and
    [dim_feedforward] (four times [d_model]) in the block constructors. *)
Theorem C8_mandatory_and_optional_keys
    (conv2d_cost : list Z → Z → Z * Z → cost) (norm_cost : list Z → cost)
    (pool2d_cost : list Z → Z * Z → Z * Z → cost)
    (basic_block bottleneck_block_cx sepformer_block
       : config → list Z → result (cost * list Z))
    (cfg : config) (key : string) :
  (∀ shape, first_missing ["filters"; "depth"; "pool_size"] cfg = Some key →
     simple_conv_stage_complexity conv2d_cost norm_cost pool2d_cost cfg shape
       = Err (KeyError key)) ∧
  (∀ shape σ l, σ !! l = Some cfg →
     first_missing ["depth"; "strides"] cfg = Some key →
     res_basic_stage_complexity basic_block l shape σ
       = (Err (KeyError key), σ)) ∧
  (∀ shape σ l, σ !! l = Some cfg →
     first_missing ["depth"; "strides"] cfg = Some key →
     res_bottleneck_stage_complexity bottleneck_block_cx l shape σ
       = (Err (KeyError key), σ)) ∧
  (∀ shape, first_missing ["depth"] cfg = Some key →
     sepformer_stage_complexity sepformer_block cfg shape
       = Err (KeyError key)) ∧
  (first_missing ["filters"; "pool_size"] cfg = Some key →
     simple_conv_block cfg = Err (KeyError key)) ∧
  (first_missing ["filters"; "pool_size"] cfg = Some key →
     dynamic_conv_block cfg = Err (KeyError key)) ∧
  (first_missing ["filters"; "pool_size"] cfg = Some key →
     cond_conv_block cfg = Err (KeyError key)) ∧
  (∀ σ l, σ !! l = Some cfg →
     first_missing ["depth"; "strides"] cfg = Some key →
     res_bottleneck_stage l σ = (Err (KeyError key), σ)) ∧
  (first_missing ["filters"; "strides"; "groups"; "bottleneck_ratio"] cfg
     = Some key →
     res_bottleneck_block cfg = Err (KeyError key)) ∧
  (first_missing ["units"] cfg = Some key →
     bidirectional_GRU_block cfg = Err (KeyError key)) ∧
  (first_missing ["d_model"; "n_head"] cfg = Some key →
     transformer_encoder_layer cfg = Err (KeyError key)) ∧
  (first_missing ["units"; "n_classes"] cfg = Some key →
     simple_dense_block cfg = Err (KeyError key)) ∧
  (first_missing ["filters"; "block_num"] cfg = Some key →
     timedistributed_xception_block cfg = Err (KeyError key)) ∧
  (∀ shape, cfg !! "strides" = None →
     simple_conv_stage_complexity conv2d_cost norm_cost pool2d_cost cfg shape
       = simple_conv_stage_complexity conv2d_cost norm_cost pool2d_cost
           (<["strides" := VNone]> cfg) shape) ∧
  (cfg !! "dropout_rate" = None →
     simple_conv_block cfg
       = simple_conv_block (<["dropout_rate" := VFloat (Qmake 0 1)]> cfg)) ∧
  (cfg !! "activation" = None →
     res_bottleneck_block cfg
       = res_bottleneck_block (<["activation" := VStr "relu"]> cfg)) ∧
  (cfg !! "kernel_regularizer" = None →
     simple_conv_block cfg
       = simple_conv_block (<["kernel_regularizer" := default_regularizer]> cfg)) ∧
  (cfg !! "dropout_rate" = None →
     dynamic_conv_block cfg
       = dynamic_conv_block (<["dropout_rate" := VFloat (Qmake 0 1)]> cfg)) ∧
  (cfg !! "activation" = None →
     dynamic_conv_block cfg
       = dynamic_conv_block (<["activation" := VStr "softmax"]> cfg)) ∧
  (cfg !! "kernel_regularizer" = None →
     dynamic_conv_block cfg
       = dynamic_conv_block (<["kernel_regularizer" := default_regularizer]> cfg)) ∧
  (cfg !! "dropout_rate" = None →
     cond_conv_block cfg
       = cond_conv_block (<["dropout_rate" := VFloat (Qmake 0 1)]> cfg)) ∧
  (cfg !! "kernel_regularizer" = None →
     cond_conv_block cfg
       = cond_conv_block (<["kernel_regularizer" := default_regularizer]> cfg)) ∧
  (cfg !! "dropout_rate" = None →
     bidirectional_GRU_block cfg
       = bidirectional_GRU_block (<["dropout_rate" := VFloat (Qmake 0 1)]> cfg)) ∧
  (cfg !! "activation" = None →
     transformer_encoder_layer cfg
       = transformer_encoder_layer (<["activation" := VStr "relu"]> cfg)) ∧
  (cfg !! "dropout_rate" = None →
     transformer_encoder_layer cfg
       = transformer_encoder_layer (<["dropout_rate" := VFloat (Qmake 1 10)]> cfg)) ∧
  (cfg !! "name" = None →
     simple_dense_block cfg
       = simple_dense_block (<["name" := VNone]> cfg)) ∧
  (cfg !! "activation" = None →
     simple_dense_block cfg
       = simple_dense_block (<["activation" := VNone]> cfg)) ∧
  (cfg !! "dropout_rate" = None →
     simple_dense_block cfg
       = simple_dense_block (<["dropout_rate" := VInt 0]> cfg)) ∧
  (cfg !! "kernel_regularizer" = None →
     simple_dense_block cfg
       = simple_dense_block (<["kernel_regularizer" := default_regularizer]> cfg)) ∧
  (cfg !! "kernel_regularizer" = None →
     timedistributed_xception_block cfg
       = timedistributed_xception_block (<["kernel_regularizer" := default_regularizer]> cfg)) ∧
  (∀ d, cfg !! "d_model" = Some (VInt d) →
     cfg !! "dim_feedforward" = None →
     transformer_encoder_layer cfg
       = transformer_encoder_layer
           (<["dim_feedforward" := VInt (d * 4)]> cfg)).
Proof.
  repeat apply conj.
  - intros shape H. unfold simple_conv_stage_complexity. missing_key H.
  - intros shape σ l Hl H. by apply res_stage_missing with cfg.
  - intros shape σ l Hl H.
    by apply (res_stage_missing bottleneck_block_cx) with cfg.
  - intros shape H. unfold sepformer_stage_complexity. missing_key H.
  - intros H. unfold simple_conv_block. missing_key H.
  - intros H. unfold dynamic_conv_block. missing_key H.
  - intros H. unfold cond_conv_block. missing_key H.
  - intros σ l Hl H. by apply res_bottleneck_stage_missing with cfg.
  - intros H. unfold res_bottleneck_block. missing_key H.
  - intros H. unfold bidirectional_GRU_block. missing_key H.
  - intros H. unfold transformer_encoder_layer. missing_key H.
  - intros H. unfold simple_dense_block. missing_key H.
  - intros H. unfold timedistributed_xception_block. missing_key H.
  - intros shape H. unfold simple_conv_stage_complexity.
    rewrite !getitem_insert_ne, get_insert, get_default by done. done.
  - intros H. unfold simple_conv_block.
    rewrite !getitem_insert_ne, get_insert, get_insert_ne, get_default by done.
    done.
  - intros H. unfold res_bottleneck_block.
    rewrite !getitem_insert_ne, get_insert, get_default by done. done.
  - intros H. unfold simple_conv_block. optional_key H.
  - intros H. unfold dynamic_conv_block. optional_key H.
  - intros H. unfold dynamic_conv_block. optional_key H.
  - intros H. unfold dynamic_conv_block. optional_key H.
  - intros H. unfold cond_conv_block. optional_key H.
  - intros H. unfold cond_conv_block. optional_key H.
  - intros H. unfold bidirectional_GRU_block. optional_key H.
  - intros H. unfold transformer_encoder_layer. optional_key H.
  - intros H. unfold transformer_encoder_layer. optional_key H.
  - intros H. unfold simple_dense_block. optional_key H.
  - intros H. unfold simple_dense_block. optional_key H.
  - intros H. unfold simple_dense_block. optional_key H.
  - intros H. unfold simple_dense_block. optional_key H.
  - intros H. unfold timedistributed_xception_block. optional_key H.
  - intros d Hd H. unfold transformer_encoder_layer, get, getitem.
    rewrite ?lookup_insert_eq, ?lookup_insert_ne by done.
    rewrite Hd, H. by destruct (cfg !! "n_head").
Qed.

(** ** The simple convolutional block *)

Lemma concat_replicate_nil {A} (n : nat) : concat (replicate n (@nil A)) = [].
Proof. induction n as [|n IH]; [done|]. simpl. exact IH. Qed.

Lemma check_filters_empty (pool_size : value) (m : nat) :
  py_len pool_size = Ok m → check_filters (VList []) pool_size = Ok (VList []).
Proof.
  intros Hm. unfold check_filters. simpl. rewrite Hm. simpl.
  by rewrite concat_replicate_nil.
Qed.

Lemma check_filters_mismatch (filters pool_size : value) (n m : nat) :
  py_len filters = Ok n → py_len pool_size = Ok m → n ≠ 0%nat → n ≠ m →
  check_filters filters pool_size = Err (ValueError mismatch_msg).
Proof.
  intros Hn Hm Hn0 Hnm. unfold check_filters. rewrite Hn. simpl.
  destruct (Nat.eqb_spec n 0) as [|_]; [done|].
  rewrite Hm. simpl. destruct (Nat.eqb_spec n m) as [|_]; done.
Qed.

(** C9.  When [filters] is the empty list, [simple_conv_block] raises no
    failure whatever the length and contents of the sequence [pool_size]:
    the product of the empty list with [len(pool_size)] is the empty list,
    no lengths are compared, and the returned pipeline applies no layer and
    returns its input as it is. *)
Theorem C9_empty_filters (cfg : config) (pool_size : value) (m : nat)
    (reg : regularizer) :
  cfg !! "filters" = Some (VList []) →
  cfg !! "pool_size" = Some pool_size →
  py_len pool_size = Ok m →
  l1_l2 (get cfg "kernel_regularizer" default_regularizer) = Ok reg →
  ∃ env,
    simple_conv_block cfg = Ok env ∧
    cv_filters env = VList [] ∧
    py_mul_int (VList []) (Z.of_nat m) = Ok (VList []) ∧
    ∀ inputs : tensor, conv_block env inputs = Ok inputs.
Proof.
  intros Hf Hp Hm Hreg.
  exists (ConvEnv (VList []) pool_size
            (get cfg "dropout_rate" (VFloat (Qmake 0 1))) reg).
  split.
  - unfold simple_conv_block, getitem. rewrite Hf, Hp. simpl.
    rewrite Hreg. simpl. by rewrite (check_filters_empty pool_size m).
  - split; [done|]. split; [|done].
    simpl. by rewrite concat_replicate_nil.
Qed.

Lemma C9_empty_filters_witness :
  ∃ env,
    simple_conv_block empty_filters_config = Ok env ∧
    cv_filters env = VList [] ∧
    py_mul_int (VList []) (Z.of_nat 3) = Ok (VList []) ∧
    ∀ inputs : tensor, conv_block env inputs = Ok inputs.
Proof.
  apply (C9_empty_filters empty_filters_config
           (VList [VInt 2; VInt 2; VInt 2]) 3
           (L1L2 (VFloat (Qmake 0 1)) (VFloat (Qmake 0 1))));
    reflexivity.
Defined.

(** C5 as stated fails for the complexity function: on the mismatched
    configuration of the spec it raises the missing-key failure for
    [depth], and with a depth of 0 it returns normally. *)
Lemma C5_counterexample :
  simple_conv_stage_complexity sample_conv2d_cost sample_norm_cost
    sample_pool2d_cost mismatched_config [64; 64; 3]
    = Err (KeyError "depth") ∧
  simple_conv_stage_complexity sample_conv2d_cost sample_norm_cost
    sample_pool2d_cost (<["depth" := VInt 0]> mismatched_config) [64; 64; 3]
    = Ok (∅, [32; 32; 3]) ∧
  ¬ (simple_conv_block mismatched_config = Err (ValueError mismatch_msg) ∧
     simple_conv_stage_complexity sample_conv2d_cost sample_norm_cost
       sample_pool2d_cost mismatched_config [64; 64; 3]
       = Err (ValueError mismatch_msg)).
Proof.
  split; [vm_compute; reflexivity|].
  split; [vm_compute; reflexivity|].
  intros [_ H]. vm_compute in H. discriminate H.
Qed.

(** C5, amended.  [simple_conv_block] raises a [ValueError] whose message
    names [filters] and [pool_size] whenever [filters] is non-empty and its
    length differs from that of [pool_size].  [simple_conv_stage_complexity]
    takes no length: without a [depth] key it raises the missing-key
    failure, and with a depth of at most 0 it returns the pooling of the
    input shape, whatever [filters] is. *)
Theorem C5_length_mismatch
    (conv2d_cost : list Z → Z → Z * Z → cost) (norm_cost : list Z → cost)
    (pool2d_cost : list Z → Z * Z → Z * Z → cost)
    (cfg : config) (filters pool_size : value) (n m : nat)
    (reg : regularizer) :
  cfg !! "filters" = Some filters →
  cfg !! "pool_size" = Some pool_size →
  py_len filters = Ok n →
  py_len pool_size = Ok m →
  n ≠ 0%nat → n ≠ m →
  l1_l2 (get cfg "kernel_regularizer" default_regularizer) = Ok reg →
  simple_conv_block cfg = Err (ValueError mismatch_msg) ∧
  occurs_in "filters" mismatch_msg = true ∧
  occurs_in "pool_size" mismatch_msg = true ∧
  (∀ shape, cfg !! "depth" = None →
     simple_conv_stage_complexity conv2d_cost norm_cost pool2d_cost cfg shape
       = Err (KeyError "depth")) ∧
  (∀ shape d, cfg !! "depth" = Some (VInt d) → d ≤ 0 →
     simple_conv_stage_complexity conv2d_cost norm_cost pool2d_cost cfg shape
       = pool2d_complexity pool2d_cost shape pool_size
           (get cfg "strides" VNone) ∅).
Proof.
  intros Hf Hp Hn Hm Hn0 Hnm Hreg.
  split.
  { unfold simple_conv_block, getitem. rewrite Hf, Hp. simpl.
    rewrite Hreg. simpl.
    by rewrite (check_filters_mismatch filters pool_size n m). }
  split; [reflexivity|]. split; [reflexivity|].
  split.
  - intros shape Hd. unfold simple_conv_stage_complexity, getitem.
    by rewrite Hf, Hd.
  - intros shape d Hd Hle. unfold simple_conv_stage_complexity, getitem.
    rewrite Hf, Hd, Hp. simpl.
    replace (Z.to_nat d) with 0%nat by lia. done.
Qed.

Lemma C5_length_mismatch_witness :
  simple_conv_block mismatched_config = Err (ValueError mismatch_msg) ∧
  occurs_in "filters" mismatch_msg = true ∧
  occurs_in "pool_size" mismatch_msg = true ∧
  (∀ shape, mismatched_config !! "depth" = None →
     simple_conv_stage_complexity sample_conv2d_cost sample_norm_cost
       sample_pool2d_cost mismatched_config shape = Err (KeyError "depth")) ∧
  (∀ shape d, mismatched_config !! "depth" = Some (VInt d) → d ≤ 0 →
     simple_conv_stage_complexity sample_conv2d_cost sample_norm_cost
       sample_pool2d_cost mismatched_config shape
       = pool2d_complexity sample_pool2d_cost shape (VList [VInt 2; VInt 2])
           (get mismatched_config "strides" VNone) ∅).
Proof.
  apply (C5_length_mismatch sample_conv2d_cost sample_norm_cost
           sample_pool2d_cost mismatched_config
           (VList [VInt 16; VInt 32; VInt 64]) (VList [VInt 2; VInt 2]) 3 2
           (L1L2 (VFloat (Qmake 0 1)) (VFloat (Qmake 0 1))));
    (reflexivity || lia).
Defined.

(** C6 as stated fails for the stage complexity function: the
    configuration has no [depth], and with a depth of 0 a single pooling
    leaves the shape at 32 x 32 x 3. *)
Lemma C6_counterexample :
  simple_conv_stage_complexity sample_conv2d_cost sample_norm_cost
    sample_pool2d_cost simple_conv_config [64; 64; 3]
    = Err (KeyError "depth") ∧
  simple_conv_stage_complexity sample_conv2d_cost sample_norm_cost
    sample_pool2d_cost (<["depth" := VInt 0]> simple_conv_config) [64; 64; 3]
    = Ok (∅, [32; 32; 3]) ∧
  ¬ (∃ cx, simple_conv_stage_complexity sample_conv2d_cost sample_norm_cost
             sample_pool2d_cost simple_conv_config [64; 64; 3]
             = Ok (cx, [16; 16; 32])).
Proof.
  split; [vm_compute; reflexivity|].
  split; [vm_compute; reflexivity|].
  intros [cx H]. vm_compute in H. discriminate H.
Qed.

(** C6, amended.  The pipeline returned by [simple_conv_block] for
    filters [16, 32] and pool sizes [2, 2] maps an input of shape
    (64, 64, 3) to a tensor of shape (16, 16, 32): 32 channels and each
    spatial axis divided by 4, through exactly two poolings. *)
Theorem C6_simple_conv_example :
  ∃ env out,
    simple_conv_block simple_conv_config = Ok env ∧
    conv_block env (input_of [64; 64; 3]) = Ok out ∧
    shape out = [64 / 4; 64 / 4; 32] ∧
    shape out = [16; 16; 32] ∧
    shape_last out = VInt 32 ∧
    count_layers is_pooling (node out) = 2%nat.
Proof.
  eexists _, _. split; [vm_compute; reflexivity|].
  split; [vm_compute; reflexivity|].
  repeat split.
Qed.

(** ** The simple convolutional stage against the block *)

Lemma as_pair_spec (what : string) (v : value) (a b : Z) :
  as_pair what v = Ok (a, b) → cx_pair v = Ok (a, b) ∧ 0 < a ∧ 0 < b.
Proof.
  unfold as_pair, cx_pair. intros H.
  repeat case_match; simplify_eq; try discriminate H;
    rewrite ?andb_true_iff, ?Z.ltb_lt in *; intuition lia.
Qed.

Lemma pool_length (n p : Z) : 0 < p → (n - p) / p + 1 = n / p.
Proof.
  intros Hp. rewrite <- Z.div_add by lia. f_equal. lia.
Qed.

Lemma call_conv_same (f h w c : Z) (e : expr) (reg : option regularizer) :
  0 < f →
  call (Conv2D (VInt f) (VInt 3) (VInt 1) "same" (VInt 1) reg)
       [Tensor [h; w; c] e]
  = Ok (Tensor [h; w; f]
          (ECall (Conv2D (VInt f) (VInt 3) (VInt 1) "same" (VInt 1) reg) [e])).
Proof.
  intros Hf. unfold call. simpl.
  destruct (Z.ltb_spec 0 f) as [_|]; [|lia]. simpl.
  rewrite !Z.mod_1_r. simpl. unfold conv_output_length. simpl.
  rewrite !Z.div_1_r. repeat f_equal; lia.
Qed.

Lemma call_pool (pool_size : value) (ph pw h w c : Z) (e : expr) :
  as_pair "pool_size" pool_size = Ok (ph, pw) → ph ≤ h → pw ≤ w →
  call (MaxPooling2D pool_size) [Tensor [h; w; c] e]
  = Ok (Tensor [h / ph; w / pw; c] (ECall (MaxPooling2D pool_size) [e])).
Proof.
  intros Hp Hh Hw. destruct (as_pair_spec _ _ _ _ Hp) as (_ & Hph & Hpw).
  unfold call. simpl. rewrite Hp. simpl. unfold conv_output_length. simpl.
  destruct (Z.ltb_spec h ph) as [|_]; [lia|].
  destruct (Z.ltb_spec w pw) as [|_]; [lia|]. simpl.
  by rewrite !pool_length.
Qed.

Lemma simple_conv_loop (conv2d_cost : list Z → Z → Z * Z → cost)
    (norm_cost : list Z → cost) (f h w : Z) (n : nat) :
  ∀ (i : nat) (cx : cost) (c : Z),
  ∃ cx',
    for_range (λ _ '(cx, shape),
        '(cx, shape) ← conv2d_complexity conv2d_cost shape (VInt f) (VInt 3) cx;
        norm_complexity norm_cost shape cx)
      i n (cx, [h; w; c])
    = Ok (cx', [h; w; match n with O => c | S _ => f end]).
Proof.
  induction n as [|n IH]; intros i cx c; [by eexists|].
  simpl. destruct (IH (S i)
    (dict_add (dict_add cx (conv2d_cost [h; w; c] f (3, 3)))
       (norm_cost [h; w; f])) f) as [cx' Hcx'].
  exists cx'. rewrite Hcx'. by destruct n.
Qed.

(** C1 as stated fails: on the configuration of the spec's own example,
    which [simple_conv_block] accepts, the block produces a tensor of shape
    (16, 16, 32) while [simple_conv_stage_complexity] returns no shape at
    all (there is no [depth]); given a depth of 0 it returns another
    shape. *)
Lemma C1_counterexample :
  (shape <$> (simple_conv_block simple_conv_config
                ≫= λ env, conv_block env (input_of [64; 64; 3])))
    = Ok [16; 16; 32] ∧
  (snd <$> simple_conv_stage_complexity sample_conv2d_cost sample_norm_cost
             sample_pool2d_cost simple_conv_config [64; 64; 3])
    = Err (KeyError "depth") ∧
  (snd <$> simple_conv_stage_complexity sample_conv2d_cost sample_norm_cost
             sample_pool2d_cost (<["depth" := VInt 0]> simple_conv_config)
             [64; 64; 3])
    = Ok [32; 32; 3].
Proof. repeat split; vm_compute; reflexivity. Qed.

(** C1, amended.  For an integer number of filters, a depth of at least 1
    and a pool size no larger than the input, the shape returned by
    [simple_conv_stage_complexity] (strides absent) is the shape of the
    tensor produced by the pipeline of [simple_conv_block] for the one-layer
    configuration with that filter count and that pool size: the spatial
    axes divided by the pool size, and [filters] channels. *)
Theorem C1_simple_conv_shape
    (conv2d_cost : list Z → Z → Z * Z → cost) (norm_cost : list Z → cost)
    (pool2d_cost : list Z → Z * Z → Z * Z → cost)
    (f d h w c ph pw : Z) (pool_size : value) :
  0 < f → 1 ≤ d →
  as_pair "pool_size" pool_size = Ok (ph, pw) → ph ≤ h → pw ≤ w →
  let stage_cfg : config :=
    <["filters" := VInt f]> (<["depth" := VInt d]>
      (<["pool_size" := pool_size]> ∅)) in
  let block_cfg : config :=
    <["filters" := VList [VInt f]]>
      (<["pool_size" := VList [pool_size]]> ∅) in
  ∃ cx env out,
    simple_conv_stage_complexity conv2d_cost norm_cost pool2d_cost
      stage_cfg [h; w; c] = Ok (cx, [h / ph; w / pw; f]) ∧
    simple_conv_block block_cfg = Ok env ∧
    conv_block env (input_of [h; w; c]) = Ok out ∧
    shape out = [h / ph; w / pw; f].
Proof.
  intros Hf Hd Hp Hh Hw stage_cfg block_cfg.
  destruct (as_pair_spec _ _ _ _ Hp) as (Hcx & Hph & Hpw).
  destruct (simple_conv_loop conv2d_cost norm_cost f h w (Z.to_nat d)
              0%nat ∅ c) as [cx' Hloop].
  assert (Hs1 : stage_cfg !! "filters" = Some (VInt f)) by reflexivity.
  assert (Hs2 : stage_cfg !! "depth" = Some (VInt d)) by reflexivity.
  assert (Hs3 : stage_cfg !! "pool_size" = Some pool_size) by reflexivity.
  assert (Hs4 : stage_cfg !! "strides" = None) by reflexivity.
  assert (Hb1 : block_cfg !! "filters" = Some (VList [VInt f]))
    by reflexivity.
  assert (Hb2 : block_cfg !! "pool_size" = Some (VList [pool_size]))
    by reflexivity.
  assert (Hb3 : block_cfg !! "dropout_rate" = None) by reflexivity.
  assert (Hb4 : block_cfg !! "kernel_regularizer" = None) by reflexivity.
  clearbody stage_cfg block_cfg.
  eexists _, _, _. split; [|split; [|split]].
  - unfold simple_conv_stage_complexity, getitem, get.
    rewrite Hs1, Hs2, Hs3, Hs4. simpl.
    rewrite Hloop. simpl. destruct (Z.to_nat d) eqn:E; [lia|].
    unfold pool2d_complexity. rewrite Hcx. simpl.
    destruct (Z.eqb_spec ph 0) as [|_]; [lia|].
    destruct (Z.eqb_spec pw 0) as [|_]; [lia|]. simpl.
    rewrite !pool_length by done. reflexivity.
  - unfold simple_conv_block, getitem, get.
    rewrite Hb1, Hb2, Hb3, Hb4. simpl. reflexivity.
  - unfold conv_block, input_of. simpl.
    rewrite call_conv_same by done. simpl.
    rewrite (call_pool pool_size ph pw) by done. simpl. reflexivity.
  - reflexivity.
Qed.

Lemma C1_simple_conv_shape_witness :
  let stage_cfg : config :=
    <["filters" := VInt 32]> (<["depth" := VInt 2]>
      (<["pool_size" := VList [VInt 4; VInt 2]]> ∅)) in
  let block_cfg : config :=
    <["filters" := VList [VInt 32]]>
      (<["pool_size" := VList [VList [VInt 4; VInt 2]]]> ∅) in
  ∃ cx env out,
    simple_conv_stage_complexity sample_conv2d_cost sample_norm_cost
      sample_pool2d_cost stage_cfg [64; 64; 3]
      = Ok (cx, [64 / 4; 64 / 2; 32]) ∧
    simple_conv_block block_cfg = Ok env ∧
    conv_block env (input_of [64; 64; 3]) = Ok out ∧
    shape out = [64 / 4; 64 / 2; 32].
Proof.
  apply (C1_simple_conv_shape sample_conv2d_cost sample_norm_cost
           sample_pool2d_cost 32 2 64 64 3 4 2 (VList [VInt 4; VInt 2]));
    (reflexivity || lia).
Defined.

(** ** The transformer encoder layer *)

Lemma broadcast_rev_same (s : list Z) : broadcast_rev s s = Some s.
Proof.
  induction s as [|x s IH]; [done|]. simpl.
  rewrite Z.eqb_refl, IH. done.
Qed.

Lemma tensor_add_same_shape (a b : tensor) :
  shape a = shape b →
  tensor_add a b = Ok (Tensor (shape a) (EAdd (node a) (node b))).
Proof.
  intros Hs. unfold tensor_add. rewrite <- Hs, broadcast_rev_same.
  by rewrite rev_involutive.
Qed.

Lemma last_removelast (s : list Z) (d : Z) :
  last s = Some d → (removelast s ++ [d])%list = s.
Proof.
  induction s as [|x s IH]; [done|]. destruct s as [|y s].
  - simpl. by intros [= ->].
  - intros H. change (x :: (removelast (y :: s) ++ [d])%list = x :: y :: s).
    f_equal. by apply IH.
Qed.

Lemma replace_last_twice (s : list Z) (u d : Z) :
  last s = Some d → replace_last (replace_last s u) d = s.
Proof.
  intros H. unfold replace_last. rewrite removelast_last.
  by apply last_removelast.
Qed.

Lemma shape_last_int (t : tensor) (v : value) (u : Z) :
  py_eq (shape_last t) v = true → as_units v = Ok u →
  last (shape t) = Some u.
Proof.
  unfold shape_last, as_units. intros Heq Hu.
  destruct (last (shape t)) as [d|]; [|by destruct v].
  destruct v as [|z|q| | | |]; try discriminate Hu.
  - destruct (z <? 0); [discriminate Hu|]. injection Hu as <-.
    simpl in Heq. apply Z.eqb_eq in Heq. by subst.
  - destruct (float_to_int q <? 0); [discriminate Hu|]. injection Hu as <-.
    simpl in Heq. unfold q_eqb, q_of_int in Heq. simpl in Heq.
    apply Z.eqb_eq in Heq. unfold float_to_int.
    rewrite Z.mul_1_r in Heq. rewrite <- Heq. by rewrite Z.quot_mul.
Qed.

(** The layers that keep the shape of their input. *)
Lemma call_keeps_shape (l : layer) (x out : tensor) :
  match l with
  | BatchNormalization | Activation _ | Dropout _ | LayerNormalization => True
  | _ => False
  end →
  call l [x] = Ok out → shape out = shape x.
Proof.
  intros Hl H. apply call_Ok in H as [H _]. simpl in H.
  destruct l; try done.
  - by injection H as <-.
  - apply bind_Ok in H as (? & _ & H). by injection H as <-.
  - apply bind_Ok in H as (? & _ & H). by injection H as <-.
  - by injection H as <-.
Qed.

Lemma call_attention_shape (nh kd drop : value) (x out : tensor) :
  call (MultiHeadAttention nh kd drop) [x; x] = Ok out → shape out = shape x.
Proof.
  intros H. apply call_Ok in H as [H _]. simpl in H.
  apply bind_Ok in H as (? & _ & H). apply bind_Ok in H as (? & _ & H).
  apply bind_Ok in H as (? & _ & H).
  destruct (_ && _) in H; [|discriminate H]. by injection H as <-.
Qed.

Lemma call_dense_shape (units act : value) (x out : tensor) :
  call (Dense units act) [x] = Ok out →
  ∃ u, as_units units = Ok u ∧ shape x ≠ [] ∧
       shape out = replace_last (shape x) u.
Proof.
  intros H. apply call_Ok in H as [H _]. simpl in H.
  apply bind_Ok in H as (u & Hu & H). apply bind_Ok in H as (? & _ & H).
  exists u. destruct (shape x); [discriminate H|]. by injection H as <-.
Qed.

(** Every successful run of the encoder block passed the assertion and
    preserved the shape. *)
Lemma encoder_block_shape (env : encoder_env) (inputs out : tensor) :
  encoder_block env inputs = Ok out →
  py_eq (shape_last inputs) (en_d_model env) = true ∧
  shape out = shape inputs.
Proof.
  unfold encoder_block.
  destruct (py_eq (shape_last inputs) (en_d_model env)) eqn:Hassert;
    [|discriminate]. simpl negb. cbv iota zeta. intros H. split; [done|].
  apply bind_Ok in H as (key_dim & _ & H).
  apply bind_Ok in H as (attn & Hattn & H).
  apply bind_Ok in H as (attn' & Hattn' & H).
  apply bind_Ok in H as (s1 & Hs1 & H).
  apply bind_Ok in H as (x & Hx & H).
  apply bind_Ok in H as (ffn1 & Hffn1 & H).
  apply bind_Ok in H as (ffn2 & Hffn2 & H).
  apply bind_Ok in H as (ffn3 & Hffn3 & H).
  apply bind_Ok in H as (ffn4 & Hffn4 & H).
  apply bind_Ok in H as (s2 & Hs2 & H).
  (* attention keeps the shape of the query *)
  apply call_attention_shape in Hattn.
  apply call_keeps_shape in Hattn'; [|done].
  rewrite tensor_add_same_shape in Hs1 by congruence. injection Hs1 as <-.
  apply call_keeps_shape in Hx; [|done]. simpl in Hx.
  (* the two dense layers replace the last axis and restore it *)
  apply call_dense_shape in Hffn1 as (u & _ & _ & Hffn1).
  apply call_keeps_shape in Hffn2; [|done].
  apply call_dense_shape in Hffn3 as (u' & Hu' & _ & Hffn3).
  apply call_keeps_shape in Hffn4; [|done].
  pose proof (shape_last_int inputs _ u' Hassert Hu') as Hlast.
  assert (Hback : shape ffn4 = shape x).
  { rewrite Hffn4, Hffn3, Hffn2, Hffn1, Hx.
    by apply replace_last_twice. }
  rewrite tensor_add_same_shape in Hs2 by congruence. injection Hs2 as <-.
  apply call_keeps_shape in H; [|done]. simpl in H. congruence.
Qed.

Lemma call_attention (nh kd : Z) (drop : value) (x : tensor) :
  0 < nh → 0 < kd → check_rate drop = Ok tt → (2 ≤ length (shape x))%nat →
  call (MultiHeadAttention (VInt nh) (VInt kd) drop) [x; x]
  = Ok (Tensor (shape x)
          (ECall (MultiHeadAttention (VInt nh) (VInt kd) drop)
             [node x; node x])).
Proof.
  intros Hnh%Z.ltb_lt Hkd%Z.ltb_lt Hdrop Hrank%Nat.leb_le.
  unfold call, layer_shape, as_positive_int. cbn [fmap list_fmap shape node].
  rewrite Hnh, Hkd, Hdrop. cbn [mbind result_bind]. by rewrite Hrank.
Qed.

Lemma call_dense (u : Z) (act : value) (x : tensor) :
  0 ≤ u → check_activation act = Ok tt → shape x ≠ [] →
  call (Dense (VInt u) act) [x]
  = Ok (Tensor (replace_last (shape x) u) (ECall (Dense (VInt u) act) [node x])).
Proof.
  intros Hu Hact Hs. unfold call, layer_shape, as_units.
  cbn [fmap list_fmap shape node].
  destruct (Z.ltb_spec u 0) as [|_]; [lia|]. rewrite Hact.
  cbn [mbind result_bind]. by destruct (shape x).
Qed.

Lemma call_dropout (rate : value) (x : tensor) :
  check_rate rate = Ok tt →
  call (Dropout rate) [x] = Ok (Tensor (shape x) (ECall (Dropout rate) [node x])).
Proof. intros Hr. unfold call. simpl. by rewrite Hr. Qed.

Lemma call_activation (act : value) (x : tensor) :
  check_activation act = Ok tt →
  call (Activation act) [x]
  = Ok (Tensor (shape x) (ECall (Activation act) [node x])).
Proof. intros Ha. unfold call. simpl. by rewrite Ha. Qed.

Lemma replace_last_nonempty (s : list Z) (u : Z) : replace_last s u ≠ [].
Proof. unfold replace_last. by destruct (removelast s). Qed.

(** With a valid configuration the encoder block returns on every input
    of rank at least 2 that satisfies the assertion. *)
Lemma encoder_block_total (env : encoder_env) (inputs : tensor)
    (dm nh dff : Z) :
  en_d_model env = VInt dm → en_n_head env = VInt nh →
  en_dim_feedforward env = VInt dff →
  check_activation (en_activation env) = Ok tt →
  check_rate (en_dropout_rate env) = Ok tt →
  shape_last inputs = VInt dm →
  0 < nh ≤ dm → 0 < dff → (2 ≤ length (shape inputs))%nat →
  ∃ out, encoder_block env inputs = Ok out.
Proof.
  intros Hdm Hnh Hdff Hact Hrate Hlast [Hnh0 Hnhdm] Hdff0 Hrank.
  assert (Hl : last (shape inputs) = Some dm).
  { unfold shape_last in Hlast. destruct (last (shape inputs)); by simplify_eq. }
  assert (Hne : shape inputs ≠ []) by (destruct (shape inputs); simpl in *; [lia|done]).
  assert (Hkd : 0 < dm / nh) by (apply Z.div_str_pos; lia).
  assert (Hdiv : py_floordiv (VInt dm) (VInt nh) = Ok (VInt (dm / nh))).
  { unfold py_floordiv. by destruct (Z.eqb_spec nh 0) as [|_]; [lia|]. }
  eexists. unfold encoder_block. rewrite Hdm, Hnh, Hdff, Hlast. simpl py_eq.
  rewrite Z.eqb_refl. simpl negb. cbv iota zeta.
  eapply bind_intro; [exact Hdiv|].
  eapply bind_intro; [by apply call_attention|].
  eapply bind_intro; [by apply call_dropout|].
  eapply bind_intro; [by apply tensor_add_same_shape|].
  eapply bind_intro; [reflexivity|].
  eapply bind_intro; [apply call_dense; [lia|done|done]|].
  eapply bind_intro; [by apply call_dropout|].
  eapply bind_intro;
    [apply call_dense; [lia|done|apply replace_last_nonempty]|].
  eapply bind_intro; [by apply call_dropout|].
  eapply bind_intro;
    [apply tensor_add_same_shape; simpl; by rewrite replace_last_twice|].
  reflexivity.
Qed.

(** Only the assertion raises [AssertionError]. *)
Lemma bind_not_assertion {A B} (r : result A) (k : A → result B) :
  r ≠ Err AssertionError → (∀ a, k a ≠ Err AssertionError) →
  r ≫= k ≠ Err AssertionError.
Proof.
  intros Hr Hk. destruct r as [a|e]; [apply Hk|].
  intros [= ->]. by apply Hr.
Qed.

Lemma as_positive_int_not_assertion (what : string) (v : value) :
  as_positive_int what v ≠ Err AssertionError.
Proof. unfold as_positive_int. by repeat case_match. Qed.

Lemma as_pair_not_assertion (what : string) (v : value) :
  as_pair what v ≠ Err AssertionError.
Proof. unfold as_pair. by repeat case_match. Qed.

Lemma conv_output_length_not_assertion (n k : Z) (padding : string) (s : Z) :
  conv_output_length n k padding s ≠ Err AssertionError.
Proof. unfold conv_output_length. by repeat case_match. Qed.

Lemma as_filters_not_assertion (v : value) : as_filters v ≠ Err AssertionError.
Proof. unfold as_filters. by repeat case_match. Qed.

Lemma as_units_not_assertion (v : value) : as_units v ≠ Err AssertionError.
Proof. unfold as_units. by repeat case_match. Qed.

Lemma check_activation_not_assertion (v : value) :
  check_activation v ≠ Err AssertionError.
Proof. unfold check_activation. by repeat case_match. Qed.

Lemma check_rate_not_assertion (v : value) : check_rate v ≠ Err AssertionError.
Proof. unfold check_rate. by repeat case_match. Qed.

Lemma call_not_assertion (l : layer) (args : list tensor) :
  call l args ≠ Err AssertionError.
Proof.
  unfold call. apply bind_not_assertion; [|done].
  unfold layer_shape.
  repeat first
    [ done
    | apply bind_not_assertion;
      [ first [ apply as_positive_int_not_assertion
              | apply as_filters_not_assertion
              | apply as_units_not_assertion
              | apply check_activation_not_assertion
              | apply check_rate_not_assertion
              | apply as_pair_not_assertion
              | apply conv_output_length_not_assertion ]
      | intros ? ]
    | case_match ].
Qed.

Lemma tensor_add_not_assertion (a b : tensor) :
  tensor_add a b ≠ Err AssertionError.
Proof. unfold tensor_add. by case_match. Qed.

Lemma py_floordiv_not_assertion (a b : value) :
  py_floordiv a b ≠ Err AssertionError.
Proof. unfold py_floordiv. by repeat case_match. Qed.

Lemma encoder_block_assertion (env : encoder_env) (inputs : tensor) :
  encoder_block env inputs = Err AssertionError ↔
  py_eq (shape_last inputs) (en_d_model env) = false.
Proof.
  unfold encoder_block.
  destruct (py_eq (shape_last inputs) (en_d_model env)); simpl negb;
    cbv iota zeta; [|done].
  split; [|discriminate]. intros H. exfalso. revert H.
  repeat first
    [ apply call_not_assertion
    | apply bind_not_assertion;
      [ first [ apply py_floordiv_not_assertion
              | apply call_not_assertion
              | apply tensor_add_not_assertion ]
      | intros ? ] ].
Qed.

(** C10.  The closure returned by [transformer_encoder_layer] asserts that
    the last axis of its input equals the configured [d_model]: it raises
    [AssertionError] exactly on the inputs that violate this; every run
    that returns has passed the assertion and yields a tensor of the shape
    of the input; and with a valid configuration (integer width, a head
    count between 1 and the width, a positive feed-forward width, an
    activation that Keras knows, a dropout rate in [0, 1)) it does return
    on every input of rank at least 2 and positive sizes that satisfies
    the assertion. *)
Theorem C10_encoder_precondition
    (cfg : config) (env : encoder_env) (inputs : tensor) :
  transformer_encoder_layer cfg = Ok env →
  cfg !! "d_model" = Some (en_d_model env) ∧
  (encoder_block env inputs = Err AssertionError ↔
     py_eq (shape_last inputs) (en_d_model env) = false) ∧
  (∀ out, encoder_block env inputs = Ok out →
     py_eq (shape_last inputs) (en_d_model env) = true ∧
     shape out = shape inputs) ∧
  (∀ dm nh dff : Z,
     en_d_model env = VInt dm → en_n_head env = VInt nh →
     en_dim_feedforward env = VInt dff →
     check_activation (en_activation env) = Ok tt →
     check_rate (en_dropout_rate env) = Ok tt →
     shape_last inputs = VInt dm →
     0 < nh ≤ dm → 0 < dff → (2 ≤ length (shape inputs))%nat →
     Forall (λ d, 0 < d) (shape inputs) →
     ∃ out, encoder_block env inputs = Ok out ∧ shape out = shape inputs).
Proof.
  intros Henv. split.
  { unfold transformer_encoder_layer in Henv.
    apply bind_Ok in Henv as (d_model & Hd & Henv).
    apply bind_Ok in Henv as (n_head & _ & Henv).
    apply bind_Ok in Henv as (widened & _ & Henv).
    injection Henv as <-. simpl. by apply getitem_Ok. }
  split; [apply encoder_block_assertion|].
  split; [intros out; apply encoder_block_shape|].
  intros dm nh dff Hdm Hnh Hdff Hact Hrate Hlast Hheads Hff Hrank _.
  destruct (encoder_block_total env inputs dm nh dff) as [out Hout]; try done.
  exists out. split; [done|]. by apply (encoder_block_shape env inputs out).
Qed.

Lemma C10_encoder_precondition_witness :
  let env := encoder_example_env in
  let inputs := input_of [100; 64] in
  encoder_config !! "d_model" = Some (en_d_model env) ∧
  (encoder_block env inputs = Err AssertionError ↔
     py_eq (shape_last inputs) (en_d_model env) = false) ∧
  (∀ out, encoder_block env inputs = Ok out →
     py_eq (shape_last inputs) (en_d_model env) = true ∧
     shape out = shape inputs) ∧
  (∀ dm nh dff : Z,
     en_d_model env = VInt dm → en_n_head env = VInt nh →
     en_dim_feedforward env = VInt dff →
     check_activation (en_activation env) = Ok tt →
     check_rate (en_dropout_rate env) = Ok tt →
     shape_last inputs = VInt dm →
     0 < nh ≤ dm → 0 < dff → (2 ≤ length (shape inputs))%nat →
     Forall (λ d, 0 < d) (shape inputs) →
     ∃ out, encoder_block env inputs = Ok out ∧ shape out = shape inputs).
Proof.
  apply (C10_encoder_precondition encoder_config encoder_example_env
           (input_of [100; 64])).
  reflexivity.
Defined.

(** The encoder accepts a sequence of 100 vectors of width 64 and refuses
    one of width 32. *)
Example encoder_example :
  shape <$> encoder_block encoder_example_env (input_of [100; 64])
    = Ok [100; 64] ∧
  encoder_block encoder_example_env (input_of [100; 32]) = Err AssertionError.
Proof. split; vm_compute; reflexivity. Qed.

Lemma C8_mandatory_and_optional_keys_witness :
  simple_conv_stage_complexity sample_conv2d_cost sample_norm_cost
    sample_pool2d_cost simple_conv_config [64; 64; 3]
    = Err (KeyError "depth") ∧
  res_bottleneck_block simple_conv_config = Err (KeyError "strides") ∧
  simple_conv_block simple_conv_config
    = simple_conv_block
        (<["dropout_rate" := VFloat (Qmake 0 1)]> simple_conv_config) ∧
  dynamic_conv_block simple_conv_config
    = dynamic_conv_block
        (<["activation" := VStr "softmax"]> simple_conv_config) ∧
  transformer_encoder_layer encoder_config
    = transformer_encoder_layer
        (<["dim_feedforward" := VInt (64 * 4)]> encoder_config).
Proof.
  split; [|split; [|split; [|split]]].
  - apply (C8_mandatory_and_optional_keys sample_conv2d_cost sample_norm_cost
             sample_pool2d_cost counting_block counting_block counting_block
             simple_conv_config "depth").
    reflexivity.
  - apply (C8_mandatory_and_optional_keys sample_conv2d_cost sample_norm_cost
             sample_pool2d_cost counting_block counting_block counting_block
             simple_conv_config "strides").
    reflexivity.
  - apply (C8_mandatory_and_optional_keys sample_conv2d_cost sample_norm_cost
             sample_pool2d_cost counting_block counting_block counting_block
             simple_conv_config "depth").
    reflexivity.
  - apply (C8_mandatory_and_optional_keys sample_conv2d_cost sample_norm_cost
             sample_pool2d_cost counting_block counting_block counting_block
             simple_conv_config "depth").
    reflexivity.
  - apply (C8_mandatory_and_optional_keys sample_conv2d_cost sample_norm_cost
             sample_pool2d_cost counting_block counting_block counting_block
             encoder_config "depth"); reflexivity.
Defined.

(** The closure returned by [res_bottleneck_stage] assigns to the copy it
    captured: its first run applies the configured strides once, and a
    second run of the same closure starts from strides 1. *)
Example stage_runs_twice :
  let '(env, σ1) := res_bottleneck_stage 1%positive stage_heap in
  match env with
  | Ok env =>
      let '(first, σ2) := stage env (input_of [64; 64; 8]) σ1 in
      let '(second, σ3) := stage env (input_of [64; 64; 8]) σ2 in
      shape <$> first = Ok [32; 32; 8] ∧
      shape <$> second = Ok [64; 64; 8] ∧
      σ3 !! 1%positive = Some stage_config
  | Err _ => False
  end.
Proof. vm_compute. repeat split. Qed.

(** * Further properties of the blocks and stages *)

Local Open Scope list_scope.

(** ** The simple convolutional pipeline in general *)

Lemma product_cons (p : Z) (ps : list Z) : product (p :: ps) = p * product ps.
Proof. reflexivity. Qed.

Lemma product_pos (ps : list Z) : Forall (λ p, 0 < p) ps → 0 < product ps.
Proof.
  induction 1 as [|p ps Hp _ IH]; [done|]. rewrite product_cons. lia.
Qed.

Lemma py_index_middle (pre post : list Z) (x : Z) :
  py_index (VList (VInt <$> (pre ++ x :: post))) (length pre) = Ok (VInt x).
Proof.
  unfold py_index. rewrite list_lookup_fmap, lookup_app_r by lia.
  by rewrite Nat.sub_diag.
Qed.

Lemma for_range_S {A} (body : nat → A → result A) (i n : nat) (x : A) :
  for_range body i (S n) x = body i x ≫= for_range body (S i) n.
Proof. reflexivity. Qed.

Lemma conv_block_loop (env : conv_env) (fs ps : list Z) :
  ∀ (pre_f pre_p : list Z) (h w c : Z) (e : expr),
    cv_filters env = VList (VInt <$> (pre_f ++ fs)) →
    cv_pool_size env = VList (VInt <$> (pre_p ++ ps)) →
    length pre_f = length pre_p → length fs = length ps →
    Forall (λ f, 0 < f) fs → Forall (λ p, 0 < p) ps →
    check_rate (cv_dropout_rate env) = Ok tt →
    product ps ≤ h → product ps ≤ w →
    ∃ out,
      for_range (λ i x,
          f ← py_index (cv_filters env) i;
          x ← call (Conv2D f (VInt 3) (VInt 1) "same" (VInt 1)
                           (Some (cv_kernel_regularizer env))) [x];
          x ← call BatchNormalization [x];
          x ← call (Activation (VStr "relu")) [x];
          p ← py_index (cv_pool_size env) i;
          x ← call (MaxPooling2D p) [x];
          call (Dropout (cv_dropout_rate env)) [x])
        (length pre_f) (length fs) (Tensor [h; w; c] e) = Ok out ∧
      shape out = [h / product ps; w / product ps; default c (last fs)] ∧
      count_layers is_pooling (node out)
        = (length fs + count_layers is_pooling e)%nat.
Proof.
  revert ps. induction fs as [|f fs IH]; intros ps pre_f pre_p h w c e
    Hf Hp Hpre Hlen Hfs Hps Hrate Hh Hw.
  - destruct ps; [|done]. eexists. split; [reflexivity|].
    simpl. by rewrite !Z.div_1_r.
  - destruct ps as [|p ps]; [done|].
    apply Forall_cons in Hfs as [Hf0 Hfs]. apply Forall_cons in Hps as [Hp0 Hps].
    pose proof (product_pos ps Hps) as Hprod.
    rewrite product_cons in Hh, Hw.
    assert (Hph : p ≤ h) by nia. assert (Hpw : p ≤ w) by nia.
    destruct (IH ps (pre_f ++ [f]) (pre_p ++ [p]) (h / p) (w / p) f
      (ECall (Dropout (cv_dropout_rate env))
         [ECall (MaxPooling2D (VInt p))
            [ECall (Activation (VStr "relu"))
               [ECall BatchNormalization
                  [ECall (Conv2D (VInt f) (VInt 3) (VInt 1) "same" (VInt 1)
                            (Some (cv_kernel_regularizer env))) [e]]]]]))
      as (out & Hout & Hshape & Hcount).
    + by rewrite <- app_assoc.
    + by rewrite <- app_assoc.
    + rewrite !length_app. simpl. lia.
    + by injection Hlen.
    + done.
    + done.
    + done.
    + apply Z.div_le_lower_bound; lia.
    + apply Z.div_le_lower_bound; lia.
    + exists out. split; [|split].
      * change (length (f :: fs)) with (S (length fs)).
        rewrite length_app in Hout. simpl length in Hout.
        rewrite Nat.add_1_r in Hout.
        rewrite for_range_S. eapply bind_intro; [|exact Hout].
        cbv beta. rewrite Hf at 1. rewrite py_index_middle.
        eapply bind_intro; [reflexivity|].
        eapply bind_intro; [by apply call_conv_same|].
        eapply bind_intro; [reflexivity|].
        eapply bind_intro; [reflexivity|].
        rewrite Hp at 1. rewrite Hpre, py_index_middle.
        eapply bind_intro; [reflexivity|].
        eapply bind_intro.
        { apply (call_pool (VInt p) p p); [|done..].
          unfold as_pair. by destruct (Z.ltb_spec 0 p) as [_|]; [|lia]. }
        by apply call_dropout.
      * rewrite Hshape, product_cons, !Z.div_div by lia.
        rewrite last_cons. by destruct (last fs).
      * rewrite Hcount. simpl. lia.
Qed.

Lemma check_filters_lists (fs ps : list Z) :
  length fs = length ps →
  check_filters (VList (VInt <$> fs)) (VList (VInt <$> ps))
  = Ok (VList (VInt <$> fs)).
Proof.
  intros Hlen. unfold check_filters, py_len. rewrite !length_fmap.
  destruct fs as [|f fs], ps as [|p ps]; try done.
  simpl in Hlen. injection Hlen as Hlen. simpl. rewrite Hlen.
  by rewrite Nat.eqb_refl.
Qed.

(** X1.  For lists of positive filter counts and pool sizes of the same
    length whose pool sizes multiply to at most the height and the width,
    a regularizer that [l1_l2] accepts and a dropout rate in [0, 1), the
    pipeline of [simple_conv_block] returns on an input with at least one
    channel; each spatial axis is divided by the product of the pool
    sizes, the channel count is the last filter count (the input's when
    the lists are empty), and one pooling layer is added per entry. *)
Theorem X1_conv_pipeline_shape (cfg : config) (fs ps : list Z)
    (reg : regularizer) (h w c : Z) (e : expr) :
  cfg !! "filters" = Some (VList (VInt <$> fs)) →
  cfg !! "pool_size" = Some (VList (VInt <$> ps)) →
  l1_l2 (get cfg "kernel_regularizer" default_regularizer) = Ok reg →
  check_rate (get cfg "dropout_rate" (VFloat (Qmake 0 1))) = Ok tt →
  length fs = length ps →
  Forall (λ f, 0 < f) fs → Forall (λ p, 0 < p) ps →
  product ps ≤ h → product ps ≤ w → 0 < c →
  ∃ env out,
    simple_conv_block cfg = Ok env ∧
    conv_block env (Tensor [h; w; c] e) = Ok out ∧
    shape out = [h / product ps; w / product ps; default c (last fs)] ∧
    count_layers is_pooling (node out)
      = (length fs + count_layers is_pooling e)%nat.
Proof.
  intros Hf Hp Hreg Hrate Hlen Hfs Hps Hh Hw _.
  set (env := ConvEnv (VList (VInt <$> fs)) (VList (VInt <$> ps))
                (get cfg "dropout_rate" (VFloat (Qmake 0 1))) reg).
  destruct (conv_block_loop env fs ps [] [] h w c e)
    as (out & Hout & Hshape & Hcount); try done.
  exists env, out. split; [|split; [|done]].
  - unfold simple_conv_block, getitem. rewrite Hf, Hp. simpl.
    rewrite Hreg. simpl. by rewrite check_filters_lists.
  - unfold conv_block. simpl py_len. rewrite length_fmap.
    eapply bind_intro; [reflexivity|]. exact Hout.
Qed.

Lemma X1_conv_pipeline_shape_witness :
  ∃ env out,
    simple_conv_block simple_conv_config = Ok env ∧
    conv_block env (Tensor [64; 64; 3] (EInput 0)) = Ok out ∧
    shape out = [64 / product [2; 2]; 64 / product [2; 2];
                 default 3 (last [16; 32])] ∧
    count_layers is_pooling (node out)
      = (length [16; 32] + count_layers is_pooling (EInput 0))%nat.
Proof.
  apply (X1_conv_pipeline_shape simple_conv_config [16; 32] [2; 2]
           (L1L2 (VFloat (Qmake 0 1)) (VFloat (Qmake 0 1))) 64 64 3 (EInput 0));
    try reflexivity; try (repeat constructor; lia); vm_compute; discriminate.
Defined.

(** ** The shape of the bottleneck block and stage *)

Lemma call_conv (filters kernel_size strides groups : value)
    (padding : string) (reg : option regularizer)
    (f kh kw sh sw g h w c oh ow : Z) (e : expr) :
  as_filters filters = Ok f →
  as_pair "kernel_size" kernel_size = Ok (kh, kw) →
  as_pair "strides" strides = Ok (sh, sw) →
  as_positive_int "groups" groups = Ok g →
  c mod g = 0 → f mod g = 0 →
  conv_output_length h kh padding sh = Ok oh →
  conv_output_length w kw padding sw = Ok ow →
  call (Conv2D filters kernel_size strides padding groups reg)
       [Tensor [h; w; c] e]
  = Ok (Tensor [oh; ow; f]
          (ECall (Conv2D filters kernel_size strides padding groups reg) [e])).
Proof.
  intros Hf Hk Hs Hg Hcg Hfg Hoh How. unfold call, layer_shape.
  cbn [fmap list_fmap shape node]. rewrite Hf, Hk, Hs, Hg.
  cbn [mbind result_bind]. rewrite Hcg, Hfg. cbn [Z.eqb andb negb].
  rewrite Hoh, How. reflexivity.
Qed.

Lemma as_positive_int_Ok (what : string) (z : Z) :
  0 < z → as_positive_int what (VInt z) = Ok z.
Proof. intros H. unfold as_positive_int. by destruct (Z.ltb_spec 0 z); [|lia]. Qed.

Lemma as_filters_Ok (z : Z) : 0 < z → as_filters (VInt z) = Ok z.
Proof. intros H. unfold as_filters. by destruct (Z.ltb_spec 0 z); [|lia]. Qed.

Lemma as_pair_int (what : string) (k : Z) :
  0 < k → as_pair what (VInt k) = Ok (k, k).
Proof. intros H. unfold as_pair. by destruct (Z.ltb_spec 0 k); [|lia]. Qed.

Lemma as_pair_unit (what : string) (v : value) (sh sw : Z) :
  as_pair what v = Ok (sh, sw) → py_eq v unit_strides = true →
  sh = 1 ∧ sw = 1.
Proof.
  unfold as_pair, unit_strides. intros H Heq.
  repeat case_match; simplify_eq; try discriminate Heq.
  simpl in Heq. rewrite !andb_true_iff, !Z.eqb_eq in Heq. lia.
Qed.

Lemma valid_length_1 (n s : Z) :
  1 ≤ n → 0 < s → conv_output_length n 1 "valid" s = Ok ((n + s - 1) / s).
Proof.
  intros Hn Hs. unfold conv_output_length. simpl.
  destruct (Z.ltb_spec n 1); [lia|]. f_equal.
  rewrite <- Z.div_add by lia. f_equal. lia.
Qed.

Lemma same_length (n k s : Z) :
  conv_output_length n k "same" s = Ok ((n + s - 1) / s).
Proof. reflexivity. Qed.

Lemma strided_length_pos (n s : Z) : 1 ≤ n → 0 < s → 1 ≤ (n + s - 1) / s.
Proof. intros Hn Hs. apply Z.div_le_lower_bound; lia. Qed.

Lemma valid_length_unit (n : Z) :
  1 ≤ n → conv_output_length n 1 "valid" 1 = Ok n.
Proof.
  intros Hn. rewrite valid_length_1 by lia. f_equal.
  rewrite Z.div_1_r. lia.
Qed.

Lemma bottleneck_main_returns (env : bottleneck_env)
    (f g sh sw h w c : Z) (e : expr) :
  bn_filters env = VInt f → bn_groups env = VInt g →
  as_pair "strides" (bn_strides env) = Ok (sh, sw) →
  0 < f → 0 < g → 0 < bn_bottleneck_size env →
  f mod g = 0 → bn_bottleneck_size env mod g = 0 →
  check_activation (bn_activation env) = Ok tt →
  1 ≤ h → 1 ≤ w →
  ∃ main,
    bottleneck_main env (Tensor [h; w; c] e) = Ok main ∧
    shape main = [(h + sh - 1) / sh; (w + sw - 1) / sw; f].
Proof.
  intros Hf Hg Hs Hf0 Hg0 Hb0 Hfg Hbg Hact Hh Hw.
  destruct (as_pair_spec _ _ _ _ Hs) as (_ & Hsh & Hsw).
  eexists. split.
  - unfold bottleneck_main, Conv2D_default. rewrite Hf, Hg.
    eapply bind_intro.
    { apply (call_conv _ _ _ _ _ _ f 1 1 1 1 1 h w c h w);
        auto using as_positive_int_Ok, as_filters_Ok, as_pair_int,
                   valid_length_unit, Z.mod_1_r with lia. }
    eapply bind_intro; [reflexivity|].
    eapply bind_intro; [by apply call_activation|].
    eapply bind_intro.
    { apply (call_conv _ _ _ _ _ _ (bn_bottleneck_size env) 3 3 sh sw g h w f
               ((h + sh - 1) / sh) ((w + sw - 1) / sw));
        auto using as_positive_int_Ok, as_filters_Ok, as_pair_int,
                   same_length with lia. }
    eapply bind_intro; [reflexivity|].
    eapply bind_intro; [by apply call_activation|].
    eapply bind_intro.
    { apply (call_conv _ _ _ _ _ _ f 1 1 1 1 1
               ((h + sh - 1) / sh) ((w + sw - 1) / sw)
               (bn_bottleneck_size env)
               ((h + sh - 1) / sh) ((w + sw - 1) / sw));
        auto using as_positive_int_Ok, as_filters_Ok, as_pair_int,
                   valid_length_unit, strided_length_pos, Z.mod_1_r with lia. }
    reflexivity.
  - reflexivity.
Qed.

Lemma bottleneck_block_returns (env : bottleneck_env)
    (f g sh sw h w c : Z) (e : expr) :
  bn_filters env = VInt f → bn_groups env = VInt g →
  as_pair "strides" (bn_strides env) = Ok (sh, sw) →
  0 < f → 0 < g → 0 < bn_bottleneck_size env →
  f mod g = 0 → bn_bottleneck_size env mod g = 0 →
  check_activation (bn_activation env) = Ok tt →
  1 ≤ h → 1 ≤ w →
  ∃ out,
    bottleneck_block env (Tensor [h; w; c] e) = Ok out ∧
    shape out = [(h + sh - 1) / sh; (w + sw - 1) / sw; f].
Proof.
  intros Hf Hg Hs Hf0 Hg0 Hb0 Hfg Hbg Hact Hh Hw.
  destruct (as_pair_spec _ _ _ _ Hs) as (_ & Hsh & Hsw).
  destruct (bottleneck_main_returns env f g sh sw h w c e)
    as (main & Hmain & Hshape); try done.
  unfold bottleneck_block. rewrite Hmain.
  change (Ok main ≫= ?k) with (k main). cbv beta.
  destruct (needs_projection env (Tensor [h; w; c] e)) eqn:Hneeds.
  - eexists. split.
    + eapply bind_intro.
      { unfold shortcut_layer, Conv2D_default. rewrite Hf.
        apply (call_conv _ _ _ _ _ _ f 1 1 sh sw 1 h w c
                 ((h + sh - 1) / sh) ((w + sw - 1) / sw));
          auto using as_positive_int_Ok, as_filters_Ok, as_pair_int,
                     valid_length_1, Z.mod_1_r with lia. }
      eapply bind_intro; [by apply tensor_add_same_shape|].
      by apply call_activation.
    + simpl. exact Hshape.
  - unfold needs_projection in Hneeds. rewrite Hf in Hneeds.
    apply orb_false_iff in Hneeds as [Hunit Hchan].
    apply negb_false_iff in Hunit, Hchan.
    destruct (as_pair_unit _ _ _ _ Hs Hunit) as [-> ->].
    simpl in Hchan. apply Z.eqb_eq in Hchan. subst c.
    assert (Hsame : shape main = [h; w; f]).
    { rewrite Hshape. by rewrite !Z.add_simpl_r, !Z.div_1_r. }
    eexists. split.
    + eapply bind_intro; [reflexivity|].
      eapply bind_intro; [by apply tensor_add_same_shape|].
      by apply call_activation.
    + simpl. exact Hshape.
Qed.

Lemma valid_bottleneck_env (cfg : config) (f g b sh sw : Z) :
  valid_bottleneck cfg f g b sh sw →
  ∃ env,
    res_bottleneck_block cfg = Ok env ∧
    bn_filters env = VInt f ∧ bn_groups env = VInt g ∧
    bn_bottleneck_size env = b ∧
    as_pair "strides" (bn_strides env) = Ok (sh, sw) ∧
    check_activation (bn_activation env) = Ok tt.
Proof.
  intros (strides & ratio & Hf & Hs & Hg & Hr & Hb & Hp & Hrest).
  eexists. split.
  - unfold res_bottleneck_block, getitem. rewrite Hf, Hs, Hg, Hr.
    cbn [mbind result_bind]. rewrite Hb. reflexivity.
  - simpl. repeat split; [by destruct strides|apply Hrest].
Qed.

(** X2.  For a valid bottleneck configuration and an input of at least one
    row, one column and one channel, [res_bottleneck_block] returns a block
    whose run returns a tensor with [filters] channels and each spatial
    axis divided by its stride, rounded up; the input's channel count does
    not matter. *)
Theorem X2_bottleneck_block_shape (cfg : config) (f g b sh sw h w c : Z)
    (e : expr) :
  valid_bottleneck cfg f g b sh sw → 1 ≤ h → 1 ≤ w → 1 ≤ c →
  ∃ env out,
    res_bottleneck_block cfg = Ok env ∧
    bottleneck_block env (Tensor [h; w; c] e) = Ok out ∧
    shape out = [(h + sh - 1) / sh; (w + sw - 1) / sw; f].
Proof.
  intros Hvalid Hh Hw _.
  pose proof Hvalid as (_ & _ & _ & _ & _ & _ & _ & _ & Hf0 & Hg0 & Hb0
                          & Hfg & Hbg & _).
  destruct (valid_bottleneck_env _ _ _ _ _ _ Hvalid)
    as (env & Henv & Hf & Hg & Hb & Hs & Hact).
  destruct (bottleneck_block_returns env f g sh sw h w c e)
    as (out & Hout & Hshape); try done; try by rewrite Hb.
  by exists env, out.
Qed.

Lemma X2_bottleneck_block_shape_witness :
  ∃ env out,
    res_bottleneck_block stage_config = Ok env ∧
    bottleneck_block env (Tensor [65; 64; 3] (EInput 0)) = Ok out ∧
    shape out = [(65 + 2 - 1) / 2; (64 + 2 - 1) / 2; 8].
Proof.
  apply (X2_bottleneck_block_shape stage_config 8 2 4 2 2 65 64 3 (EInput 0));
    [|lia|lia|lia].
  exists (VInt 2), (VFloat (Qmake 1 2)).
  repeat split; (reflexivity || lia).
Defined.

Lemma valid_bottleneck_settled (cfg : config) (f g b sh sw : Z) :
  valid_bottleneck cfg f g b sh sw →
  valid_bottleneck (<["strides" := VInt 1]> cfg) f g b 1 1.
Proof.
  intros (strides & ratio & Hf & Hs & Hg & Hr & Hb & Hp & Hrest).
  exists (VInt 1), ratio.
  rewrite lookup_insert_eq, !lookup_insert_ne, get_insert_ne by done. done.
Qed.

Lemma stage_loop_S (lc : loc) (n : nat) (x : tensor) (σ : heap) :
  stage_loop lc (S n) x σ =
    match res_bottleneck_block (deref σ lc)
          ≫= (λ env, bottleneck_block env x) with
    | Ok x' =>
        stage_loop lc n x' (<[lc := <["strides" := VInt 1]> (deref σ lc)]> σ)
    | Err e => (Err e, σ)
    end.
Proof. reflexivity. Qed.

Lemma stage_step (cfg : config) (f g b sh sw h w c : Z) (e : expr) :
  valid_bottleneck cfg f g b sh sw → 1 ≤ h → 1 ≤ w →
  ∃ out,
    res_bottleneck_block cfg ≫= (λ env, bottleneck_block env (Tensor [h; w; c] e))
      = Ok out ∧
    shape out = [(h + sh - 1) / sh; (w + sw - 1) / sw; f].
Proof.
  intros Hvalid Hh Hw.
  pose proof Hvalid as (_ & _ & _ & _ & _ & _ & _ & _ & Hf0 & Hg0 & Hb0
                          & Hfg & Hbg & _).
  destruct (valid_bottleneck_env _ _ _ _ _ _ Hvalid)
    as (env & Henv & Hf & Hg & Hb & Hs & Hact).
  destruct (bottleneck_block_returns env f g sh sw h w c e)
    as (out & Hout & Hshape); try done; try by rewrite Hb.
  exists out. by rewrite Henv.
Qed.

(** Once the copy has strides 1, every further block keeps the spatial
    axes and the copy stays as it is. *)
Lemma stage_loop_settled (lc : loc) (cfg : config) (f g b h w : Z) (n : nat) :
  valid_bottleneck cfg f g b 1 1 → <["strides" := VInt 1]> cfg = cfg →
  1 ≤ h → 1 ≤ w →
  ∀ (c : Z) (e : expr) (σ : heap),
    deref σ lc = cfg →
    ∃ out σ',
      stage_loop lc n (Tensor [h; w; c] e) σ = (Ok out, σ') ∧
      shape out = [h; w; match n with O => c | S _ => f end] ∧
      deref σ' lc = cfg ∧
      ∀ l, l ≠ lc → σ' !! l = σ !! l.
Proof.
  intros Hvalid Hcfg Hh Hw.
  induction n as [|n IH]; intros c e σ Hσ.
  - by exists (Tensor [h; w; c] e), σ.
  - destruct (stage_step cfg f g b 1 1 h w c e) as (x & Hx & Hshape);
      try done.
    rewrite !Z.add_simpl_r, !Z.div_1_r in Hshape.
    destruct x as [sx ex]. simpl in Hshape. subst sx.
    destruct (IH f ex (<[lc := <["strides" := VInt 1]> (deref σ lc)]> σ))
      as (out & σ' & Hrun & Hout & Hderef & Hframe).
    { by rewrite deref_insert, Hσ. }
    exists out, σ'. rewrite stage_loop_S, Hσ, Hx.
    rewrite Hσ in Hrun. split; [done|]. split; [|split; [done|]].
    + rewrite Hout. by destruct n.
    + intros l Hl. rewrite Hframe by done. rewrite Hσ.
      by rewrite lookup_insert_ne.
Qed.

Lemma stage_loop_returns (lc : loc) (cfg : config) (f g b sh sw h w c : Z)
    (e : expr) (n : nat) (σ : heap) :
  valid_bottleneck cfg f g b sh sw → 1 ≤ h → 1 ≤ w →
  deref σ lc = cfg →
  ∃ out σ',
    stage_loop lc (S n) (Tensor [h; w; c] e) σ = (Ok out, σ') ∧
    shape out = [(h + sh - 1) / sh; (w + sw - 1) / sw; f] ∧
    deref σ' lc = <["strides" := VInt 1]> cfg ∧
    ∀ l, l ≠ lc → σ' !! l = σ !! l.
Proof.
  intros Hvalid Hh Hw Hσ.
  pose proof Hvalid as (strides & ratio & _ & _ & _ & _ & _ & Hp & _).
  destruct (as_pair_spec _ _ _ _ Hp) as (_ & Hsh & Hsw).
  destruct (stage_step cfg f g b sh sw h w c e) as (x & Hx & Hshape);
    try done.
  destruct x as [sx ex]. simpl in Hshape. subst sx.
  destruct (stage_loop_settled lc (<["strides" := VInt 1]> cfg) f g b
              ((h + sh - 1) / sh) ((w + sw - 1) / sw) n
              (valid_bottleneck_settled _ _ _ _ _ _ Hvalid)
              (insert_insert_eq _ _ _ _)
              (strided_length_pos h sh Hh Hsh)
              (strided_length_pos w sw Hw Hsw) f ex
              (<[lc := <["strides" := VInt 1]> cfg]> σ))
    as (out & σ' & Hrun & Hout & Hderef & Hframe).
  { by rewrite deref_insert. }
  exists out, σ'. rewrite stage_loop_S, Hσ, Hx.
  split; [done|]. split; [|split; [done|]].
  - rewrite Hout. by destruct n.
  - intros l Hl. rewrite Hframe by done. by rewrite lookup_insert_ne.
Qed.

Lemma res_bottleneck_stage_run (σ : heap) (l : loc) (cfg : config)
    (depth strides : value) :
  σ !! l = Some cfg →
  cfg !! "depth" = Some depth → cfg !! "strides" = Some strides →
  res_bottleneck_stage l σ
  = (Ok (StageEnv depth (fresh (dom σ))), <[fresh (dom σ) := cfg]> σ).
Proof.
  intros Hl%deref_lookup Hd Hs. unfold res_bottleneck_stage.
  rewrite M_bind_run. unfold getitem_ref at 1. rewrite Hl.
  unfold getitem at 1. rewrite Hd.
  rewrite M_bind_run. unfold getitem_ref at 1. rewrite Hl.
  unfold getitem at 1. rewrite Hs.
  rewrite M_bind_run. unfold deepcopy at 1. cbv zeta. by rewrite Hl.
Qed.

Lemma stage_run (dv : Z) (lc : loc) (x : tensor) (σ : heap) :
  stage (StageEnv (VInt dv) lc) x σ = stage_loop lc (Z.to_nat dv) x σ.
Proof. reflexivity. Qed.

(** X3.  A residual bottleneck stage of depth at least 1, built from a
    valid configuration and run on an input of at least one row, one
    column and one channel, returns a tensor with [filters] channels whose spatial axes are
    divided by the configured strides once (rounded up), whatever the
    depth: only the first block strides.  The caller's dictionary is the
    same after the run. *)
Theorem X3_bottleneck_stage_shape (σ : heap) (l : loc) (cfg : config)
    (d f g b sh sw h w c : Z) (e : expr) :
  σ !! l = Some cfg → cfg !! "depth" = Some (VInt d) → 1 ≤ d →
  valid_bottleneck cfg f g b sh sw → 1 ≤ h → 1 ≤ w → 1 ≤ c →
  ∃ env σ1 out σ2,
    res_bottleneck_stage l σ = (Ok env, σ1) ∧
    stage env (Tensor [h; w; c] e) σ1 = (Ok out, σ2) ∧
    shape out = [(h + sh - 1) / sh; (w + sw - 1) / sw; f] ∧
    σ2 !! l = Some cfg.
Proof.
  intros Hl Hd Hd1 Hvalid Hh Hw _.
  pose proof Hvalid as (strides & ratio & _ & Hs & _).
  destruct (stage_loop_returns (fresh (dom σ)) cfg f g b sh sw h w c e
              (Nat.pred (Z.to_nat d)) (<[fresh (dom σ) := cfg]> σ))
    as (out & σ2 & Hrun & Hshape & _ & Hframe); try done.
  { by rewrite deref_insert. }
  exists (StageEnv (VInt d) (fresh (dom σ))), (<[fresh (dom σ) := cfg]> σ),
         out, σ2.
  split; [by eapply res_bottleneck_stage_run|].
  rewrite stage_run.
  replace (Z.to_nat d) with (S (Nat.pred (Z.to_nat d))) by lia.
  split; [done|]. split; [done|].
  pose proof (fresh_loc_ne σ l cfg Hl) as Hne.
  rewrite Hframe by done. by rewrite lookup_insert_ne.
Qed.

Lemma X3_bottleneck_stage_shape_witness :
  ∃ env σ1 out σ2,
    res_bottleneck_stage 1%positive stage_heap = (Ok env, σ1) ∧
    stage env (Tensor [65; 64; 3] (EInput 0)) σ1 = (Ok out, σ2) ∧
    shape out = [(65 + 2 - 1) / 2; (64 + 2 - 1) / 2; 8] ∧
    σ2 !! 1%positive = Some stage_config.
Proof.
  apply (X3_bottleneck_stage_shape stage_heap 1%positive stage_config
           3 8 2 4 2 2 65 64 3 (EInput 0));
    [reflexivity|reflexivity|lia| |lia|lia|lia].
  exists (VInt 2), (VFloat (Qmake 1 2)).
  repeat split; (reflexivity || lia).
Defined.

(** X4.  The closure returned by [res_bottleneck_stage] keeps the copy it
    wrote to: after one run of depth at least 1 on a valid configuration,
    a second run of the same closure finds strides 1 in it and returns a
    tensor with the spatial axes of its input, not divided by the
    configured strides.  Both inputs have at least one row, one column and
    one channel. *)
Theorem X4_bottleneck_stage_second_run (σ : heap) (l : loc) (cfg : config)
    (d f g b sh sw h w c h' w' c' : Z) (e e' : expr) :
  σ !! l = Some cfg → cfg !! "depth" = Some (VInt d) → 1 ≤ d →
  valid_bottleneck cfg f g b sh sw →
  1 ≤ h → 1 ≤ w → 1 ≤ c → 1 ≤ h' → 1 ≤ w' → 1 ≤ c' →
  ∃ env σ1 out σ2 out' σ3,
    res_bottleneck_stage l σ = (Ok env, σ1) ∧
    stage env (Tensor [h; w; c] e) σ1 = (Ok out, σ2) ∧
    stage env (Tensor [h'; w'; c'] e') σ2 = (Ok out', σ3) ∧
    shape out' = [h'; w'; f].
Proof.
  intros Hl Hd Hd1 Hvalid Hh Hw _ Hh' Hw' _.
  pose proof Hvalid as (strides & ratio & _ & Hs & _).
  destruct (stage_loop_returns (fresh (dom σ)) cfg f g b sh sw h w c e
              (Nat.pred (Z.to_nat d)) (<[fresh (dom σ) := cfg]> σ))
    as (out & σ2 & Hrun & _ & Hcopy & _); try done.
  { by rewrite deref_insert. }
  destruct (stage_loop_settled (fresh (dom σ)) (<["strides" := VInt 1]> cfg)
              f g b h' w' (Z.to_nat d)
              (valid_bottleneck_settled _ _ _ _ _ _ Hvalid)
              (insert_insert_eq _ _ _ _) Hh' Hw' c' e' σ2 Hcopy)
    as (out' & σ3 & Hrun' & Hshape' & _).
  exists (StageEnv (VInt d) (fresh (dom σ))), (<[fresh (dom σ) := cfg]> σ),
         out, σ2, out', σ3.
  split; [by eapply res_bottleneck_stage_run|].
  rewrite !stage_run. split; [|split; [done|]].
  - by replace (Z.to_nat d) with (S (Nat.pred (Z.to_nat d))) by lia.
  - rewrite Hshape'. destruct (Z.to_nat d) eqn:Hn; [lia|done].
Qed.

Lemma X4_bottleneck_stage_second_run_witness :
  ∃ env σ1 out σ2 out' σ3,
    res_bottleneck_stage 1%positive stage_heap = (Ok env, σ1) ∧
    stage env (Tensor [65; 64; 3] (EInput 0)) σ1 = (Ok out, σ2) ∧
    stage env (Tensor [65; 64; 3] (EInput 1)) σ2 = (Ok out', σ3) ∧
    shape out' = [65; 64; 8].
Proof.
  apply (X4_bottleneck_stage_second_run stage_heap 1%positive stage_config
           3 8 2 4 2 2 65 64 3 65 64 3 (EInput 0) (EInput 1));
    [reflexivity|reflexivity|lia| |lia|lia|lia|lia|lia|lia].
  exists (VInt 2), (VFloat (Qmake 1 2)).
  repeat split; (reflexivity || lia).
Defined.

(** X5.  [res_bottleneck_stage] looks up only [depth] and [strides]: with
    the block's own mandatory key [filters] absent it still returns a
    closure.  The failure comes when the closure runs: with an integer
    depth of at least 1 the run raises [KeyError] of [filters], with an
    integer depth of 0 or less it returns its input, and with a depth that
    is not an integer it raises [TypeError]; in each case the closure's
    copy is left as it was. *)
Theorem X5_stage_deferred_failure (σ : heap) (l : loc) (cfg : config)
    (depth strides : value) (x : tensor) :
  σ !! l = Some cfg →
  cfg !! "depth" = Some depth → cfg !! "strides" = Some strides →
  cfg !! "filters" = None →
  ∃ env σ1,
    res_bottleneck_stage l σ = (Ok env, σ1) ∧
    (∀ d, depth = VInt d → 1 ≤ d →
          stage env x σ1 = (Err (KeyError "filters"), σ1)) ∧
    (∀ d, depth = VInt d → d ≤ 0 → stage env x σ1 = (Ok x, σ1)) ∧
    ((∀ d, depth ≠ VInt d) →
          ∃ msg, stage env x σ1 = (Err (TypeError msg), σ1)).
Proof.
  intros Hl Hd Hs Hf.
  exists (StageEnv depth (fresh (dom σ))), (<[fresh (dom σ) := cfg]> σ).
  split; [by eapply res_bottleneck_stage_run|]. split; [|split].
  - intros d -> Hd1. rewrite stage_run.
    replace (Z.to_nat d) with (S (Nat.pred (Z.to_nat d))) by lia.
    rewrite stage_loop_S, deref_insert.
    unfold res_bottleneck_block. by rewrite (getitem_missing _ _ Hf).
  - intros d -> Hd0. rewrite stage_run.
    by replace (Z.to_nat d) with O by lia.
  - intros Hno. unfold stage. rewrite M_bind_run. unfold lift at 1.
    destruct depth as [|d| | | | |]; simpl; eauto. by destruct (Hno d).
Qed.

Lemma X5_stage_deferred_failure_witness :
  ∃ env σ1,
    res_bottleneck_stage 1%positive
        {[1%positive := {["depth" := VInt 2; "strides" := VInt 2]}]}
      = (Ok env, σ1) ∧
    (∀ d, VInt 2 = VInt d → 1 ≤ d →
          stage env (input_of [8; 8; 4]) σ1 = (Err (KeyError "filters"), σ1)) ∧
    (∀ d, VInt 2 = VInt d → d ≤ 0 →
          stage env (input_of [8; 8; 4]) σ1 = (Ok (input_of [8; 8; 4]), σ1)) ∧
    ((∀ d, VInt 2 ≠ VInt d) →
          ∃ msg, stage env (input_of [8; 8; 4]) σ1 = (Err (TypeError msg), σ1)).
Proof.
  apply (X5_stage_deferred_failure
           {[1%positive := {["depth" := VInt 2; "strides" := VInt 2]}]}
           1%positive {["depth" := VInt 2; "strides" := VInt 2]}
           (VInt 2) (VInt 2) (input_of [8; 8; 4])); reflexivity.
Defined.

(** ** The stage complexity functions as folds *)

Lemma run_blocks_acc (block : config → list Z → result (cost * list Z))
    (cfgs : list config) :
  ∀ (total : cost) (shape : list Z),
    run_blocks block cfgs total shape =
      '(cx, s) ← run_blocks block cfgs ∅ shape; Ok (dict_add total cx, s).
Proof.
  induction cfgs as [|cfg cfgs IH]; intros total shape.
  - simpl. by rewrite dict_add_empty_r.
  - simpl. destruct (block cfg shape) as [[cx s]|e]; [|done]. simpl.
    rewrite (IH (dict_add total cx)), (IH (dict_add ∅ cx)).
    destruct (run_blocks block cfgs ∅ s) as [[cx' s']|e]; [|done]. simpl.
    by rewrite dict_add_empty_l, dict_add_assoc.
Qed.

Lemma run_blocks_app (block : config → list Z → result (cost * list Z))
    (l1 l2 : list config) :
  ∀ (total : cost) (shape : list Z),
    run_blocks block (l1 ++ l2) total shape =
      '(cx, s) ← run_blocks block l1 total shape; run_blocks block l2 cx s.
Proof.
  induction l1 as [|cfg l1 IH]; intros total shape; [done|].
  simpl. destruct (block cfg shape) as [[cx s]|e]; [|done]. simpl.
  apply IH.
Qed.

Lemma run_blocks_replicate_ext
    (block : config → list Z → result (cost * list Z)) (c1 c2 : config)
    (n : nat) :
  (∀ s, block c1 s = block c2 s) →
  ∀ (total : cost) (shape : list Z),
    run_blocks block (replicate n c1) total shape =
      run_blocks block (replicate n c2) total shape.
Proof.
  intros Hext. induction n as [|n IH]; intros total shape; [done|].
  simpl. rewrite Hext.
  destruct (block c2 shape) as [[cx s]|e]; [|done]. simpl. apply IH.
Qed.

Lemma sepformer_loop (block : config → list Z → result (cost * list Z))
    (cfg : config) (n : nat) :
  ∀ (i : nat) (total : cost) (shape : list Z),
    for_range (λ _ '(total_cx, shape),
        '(cx, shape) ← block cfg shape;
        Ok (dict_add total_cx cx, shape))
      i n (total, shape)
    = run_blocks block (replicate n cfg) total shape.
Proof.
  induction n as [|n IH]; intros i total shape; [done|].
  rewrite for_range_S. simpl.
  destruct (block cfg shape) as [[cx s]|e]; [|done]. simpl. apply IH.
Qed.

Lemma sepformer_fold (block : config → list Z → result (cost * list Z))
    (cfg : config) (d : Z) (shape : list Z) :
  cfg !! "depth" = Some (VInt d) →
  sepformer_stage_complexity block cfg shape =
    run_blocks block (replicate (Z.to_nat d) cfg) ∅ shape.
Proof.
  intros Hd. unfold sepformer_stage_complexity, getitem. rewrite Hd.
  simpl. apply sepformer_loop.
Qed.

(** X6.  [sepformer_stage_complexity] evaluates the block function [depth]
    times on the caller's configuration as it is (strides are not touched),
    threading the shape and accumulating the costs with [dict_add] from the
    empty record. *)
Theorem X6_sepformer_stage_fold
    (block : config → list Z → result (cost * list Z))
    (cfg : config) (d : Z) (shape : list Z) :
  cfg !! "depth" = Some (VInt d) →
  sepformer_stage_complexity block cfg shape =
    run_blocks block (replicate (Z.to_nat d) cfg) ∅ shape.
Proof. apply sepformer_fold. Qed.

Lemma X6_sepformer_stage_fold_witness :
  sepformer_stage_complexity counting_block stage_config [64; 64; 3] =
    run_blocks counting_block (replicate (Z.to_nat 3) stage_config) ∅
      [64; 64; 3].
Proof.
  apply (X6_sepformer_stage_fold counting_block stage_config 3 [64; 64; 3]).
  reflexivity.
Defined.

(** X7.  For a block function that does not look at the [depth] key, a
    sepformer stage of depth [a + b] is the stage of depth [a] followed by
    the stage of depth [b] on the shape the first one returned, and its
    cost is the [dict_add] of the two costs. *)
Theorem X7_sepformer_depth_additive
    (block : config → list Z → result (cost * list Z))
    (cfg : config) (a b : Z) (shape s1 s2 : list Z) (cx1 cx2 : cost) :
  0 ≤ a → 0 ≤ b →
  (∀ v s, block (<["depth" := v]> cfg) s = block cfg s) →
  sepformer_stage_complexity block (<["depth" := VInt a]> cfg) shape
    = Ok (cx1, s1) →
  sepformer_stage_complexity block (<["depth" := VInt b]> cfg) s1
    = Ok (cx2, s2) →
  sepformer_stage_complexity block (<["depth" := VInt (a + b)]> cfg) shape
    = Ok (dict_add cx1 cx2, s2).
Proof.
  intros Ha Hb Hext.
  rewrite !(sepformer_fold block _ _ _ (lookup_insert_eq _ _ _)).
  rewrite !(run_blocks_replicate_ext block _ cfg _ (Hext _)).
  intros H1 H2.
  rewrite Z2Nat.inj_add, replicate_add, run_blocks_app, H1 by done. simpl.
  by rewrite run_blocks_acc, H2.
Qed.

Lemma X7_sepformer_depth_additive_witness :
  sepformer_stage_complexity counting_block
      (<["depth" := VInt (1 + 2)]> {["strides" := VInt 2]}) [64; 64; 3]
    = Ok (dict_add {["blocks" := 1; "strided" := 1]}
                   {["blocks" := 2; "strided" := 2]}, [8; 8; 3]).
Proof.
  apply (X7_sepformer_depth_additive counting_block {["strides" := VInt 2]}
           1 2 [64; 64; 3] [32; 32; 3] [8; 8; 3]);
    [lia | lia | intros v s; reflexivity | reflexivity | reflexivity].
Defined.

Lemma stage_configs_unit (cfg : config) (n : nat) :
  cfg !! "strides" = Some (VInt 1) → stage_configs cfg n = replicate n cfg.
Proof.
  intros Hs. destruct n as [|n]; [done|]. simpl.
  by rewrite (insert_id cfg "strides" (VInt 1)).
Qed.

(** X8.  When the configured strides are already the integer 1, forcing
    them to 1 changes nothing: both residual stage functions return what
    [sepformer_stage_complexity] returns for the same block function,
    configuration and input shape. *)
Theorem X8_unit_stride_residual_stage
    (block : config → list Z → result (cost * list Z))
    (σ : heap) (l : loc) (cfg : config) (d : Z) (shape : list Z) :
  σ !! l = Some cfg →
  cfg !! "depth" = Some (VInt d) → cfg !! "strides" = Some (VInt 1) →
  (res_basic_stage_complexity block l shape σ).1 =
    sepformer_stage_complexity block cfg shape ∧
  (res_bottleneck_stage_complexity block l shape σ).1 =
    sepformer_stage_complexity block cfg shape.
Proof.
  intros Hl Hd Hs. rewrite (sepformer_fold block cfg d shape Hd).
  rewrite <- (stage_configs_unit cfg (Z.to_nat d) Hs).
  split; [by eapply res_stage_run|by eapply (res_stage_run block)].
Qed.

Lemma X8_unit_stride_residual_stage_witness :
  (res_basic_stage_complexity counting_block 1%positive [64; 64; 3]
     {[1%positive := {["depth" := VInt 3; "strides" := VInt 1]}]}).1 =
    sepformer_stage_complexity counting_block
      {["depth" := VInt 3; "strides" := VInt 1]} [64; 64; 3] ∧
  (res_bottleneck_stage_complexity counting_block 1%positive [64; 64; 3]
     {[1%positive := {["depth" := VInt 3; "strides" := VInt 1]}]}).1 =
    sepformer_stage_complexity counting_block
      {["depth" := VInt 3; "strides" := VInt 1]} [64; 64; 3].
Proof.
  apply (X8_unit_stride_residual_stage counting_block
           {[1%positive := {["depth" := VInt 3; "strides" := VInt 1]}]}
           1%positive {["depth" := VInt 3; "strides" := VInt 1]} 3
           [64; 64; 3]); reflexivity.
Defined.

(** X9.  With an integer depth of 0 or less the loop body never runs: the
    sepformer stage and, when the [strides] key is present, both residual
    stages return the empty cost record and the input shape, whatever the
    block function is. *)
Theorem X9_nonpositive_depth
    (block : config → list Z → result (cost * list Z))
    (σ : heap) (l : loc) (cfg : config) (d : Z) (shape : list Z) :
  σ !! l = Some cfg → cfg !! "depth" = Some (VInt d) → d ≤ 0 →
  sepformer_stage_complexity block cfg shape = Ok (∅, shape) ∧
  (∀ strides, cfg !! "strides" = Some strides →
     (res_basic_stage_complexity block l shape σ).1 = Ok (∅, shape) ∧
     (res_bottleneck_stage_complexity block l shape σ).1 = Ok (∅, shape)).
Proof.
  intros Hl Hd Hd0. split.
  - rewrite (sepformer_fold block cfg d shape Hd).
    by replace (Z.to_nat d) with O by lia.
  - intros strides Hs.
    pose proof (res_stage_run block σ l cfg d strides shape Hl Hd Hs) as H.
    replace (Z.to_nat d) with O in H by lia.
    split; exact H.
Qed.

Lemma X9_nonpositive_depth_witness :
  sepformer_stage_complexity counting_block
      {["depth" := VInt (-2); "strides" := VInt 2]} [64; 64; 3]
    = Ok (∅, [64; 64; 3]) ∧
  (∀ strides,
     ({["depth" := VInt (-2); "strides" := VInt 2]} : config) !! "strides"
       = Some strides →
     (res_basic_stage_complexity counting_block 1%positive [64; 64; 3]
        {[1%positive := {["depth" := VInt (-2); "strides" := VInt 2]}]}).1
       = Ok (∅, [64; 64; 3]) ∧
     (res_bottleneck_stage_complexity counting_block 1%positive [64; 64; 3]
        {[1%positive := {["depth" := VInt (-2); "strides" := VInt 2]}]}).1
       = Ok (∅, [64; 64; 3])).
Proof.
  apply (X9_nonpositive_depth counting_block
           {[1%positive := {["depth" := VInt (-2); "strides" := VInt 2]}]}
           1%positive {["depth" := VInt (-2); "strides" := VInt 2]} (-2)
           [64; 64; 3]); [reflexivity | reflexivity | lia].
Defined.

(** ** What the residual stage functions leave in the heap *)

Lemma res_stage_loop_S (block : config → list Z → result (cost * list Z))
    (lc : loc) (n : nat) (total : cost) (shape : list Z) (σ : heap) :
  res_stage_loop block lc (S n) total shape σ =
    match block (deref σ lc) shape with
    | Ok (cx, s) =>
        res_stage_loop block lc n (dict_add total cx) s
          (<[lc := <["strides" := VInt 1]> (deref σ lc)]> σ)
    | Err e => (Err e, σ)
    end.
Proof.
  simpl. rewrite M_bind_run. unfold load at 1.
  rewrite M_bind_run. unfold lift at 1.
  by destruct (block (deref σ lc) shape) as [[cx s]|e].
Qed.

Lemma res_stage_loop_heap (block : config → list Z → result (cost * list Z))
    (lc : loc) (n : nat) :
  ∀ (σ : heap) (total : cost) (shape : list Z),
    let σ1 := <[lc := <["strides" := VInt 1]> (deref σ lc)]> σ in
    let run := res_stage_loop block lc n total shape σ in
    (run.2 = σ ∨ run.2 = σ1) ∧
    (∀ r, run.1 = Ok r → run.2 = match n with O => σ | S _ => σ1 end).
Proof.
  induction n as [|n IH]; intros σ total shape; [by split; [left|]|].
  cbv zeta. rewrite res_stage_loop_S.
  destruct (block (deref σ lc) shape) as [[cx s]|e];
    [|by split; [left|]].
  destruct (IH (<[lc := <["strides" := VInt 1]> (deref σ lc)]> σ)
              (dict_add total cx) s) as [Hany Hok].
  rewrite deref_insert, !insert_insert_eq in Hany, Hok.
  split.
  - right. by destruct Hany.
  - intros r Hr. specialize (Hok r Hr). by destruct n.
Qed.

Lemma res_stage_eq (block : config → list Z → result (cost * list Z))
    (σ : heap) (l : loc) (shape : list Z) :
  res_basic_stage_complexity block l shape σ =
    match getitem (deref σ l) "depth" with
    | Err e => (Err e, σ)
    | Ok depth =>
        match getitem (deref σ l) "strides" with
        | Err e => (Err e, σ)
        | Ok _ =>
            match py_range depth with
            | Err e => (Err e, <[fresh (dom σ) := deref σ l]> σ)
            | Ok n =>
                res_stage_loop block (fresh (dom σ)) n ∅ shape
                  (<[fresh (dom σ) := deref σ l]> σ)
            end
        end
    end.
Proof.
  unfold res_basic_stage_complexity.
  rewrite M_bind_run. unfold getitem_ref at 1.
  destruct (getitem (deref σ l) "depth") as [depth|e]; [|done].
  rewrite M_bind_run. unfold getitem_ref at 1.
  destruct (getitem (deref σ l) "strides") as [strides|e]; [|done].
  rewrite M_bind_run. unfold deepcopy at 1. cbv zeta.
  rewrite M_bind_run. unfold lift at 1.
  by destruct (py_range depth).
Qed.

Lemma res_stage_footprint (block : config → list Z → result (cost * list Z))
    (σ : heap) (l : loc) (cfg : config) (shape : list Z) :
  σ !! l = Some cfg →
  let run := res_basic_stage_complexity block l shape σ in
  stage_footprint σ run.2 cfg ∧
  (∀ d r, cfg !! "depth" = Some (VInt d) → 1 ≤ d → run.1 = Ok r →
     run.2 = <[fresh (dom σ) := <["strides" := VInt 1]> cfg]> σ).
Proof.
  intros Hl%deref_lookup. cbv zeta. rewrite res_stage_eq, Hl.
  destruct (getitem cfg "depth") as [depth|e] eqn:Hdepth;
    [|split; [by left|done]].
  destruct (getitem cfg "strides") as [strides|e];
    [|split; [by left|done]].
  destruct (py_range depth) as [n|e] eqn:Hn;
    [|split; [by right; left|done]].
  destruct (res_stage_loop_heap block (fresh (dom σ)) n
              (<[fresh (dom σ) := cfg]> σ) ∅ shape) as [Hany Hok].
  rewrite deref_insert, !insert_insert_eq in Hany, Hok.
  split.
  - destruct Hany as [-> | ->]; [by right; left|by right; right].
  - intros d r Hd Hd1 Hr. apply getitem_Ok in Hdepth.
    rewrite Hd in Hdepth. injection Hdepth as <-.
    simpl in Hn. injection Hn as <-.
    rewrite (Hok r Hr). destruct (Z.to_nat d) eqn:E; [lia|done].
Qed.

(** X10.  A call of a residual stage complexity function changes no object
    that was in the heap; it leaves the heap as it was (when a mandatory
    key is missing) or adds the one object made by the deep copy, holding
    the caller's configuration or that configuration with strides 1.  When
    the call returns with a depth of at least 1 the copy holds strides 1. *)
Theorem X10_residual_stage_footprint
    (basic_block bottleneck_block_cx : config → list Z → result (cost * list Z))
    (σ : heap) (l : loc) (cfg : config) (shape : list Z) :
  σ !! l = Some cfg →
  let basic := res_basic_stage_complexity basic_block l shape σ in
  let bottleneck :=
    res_bottleneck_stage_complexity bottleneck_block_cx l shape σ in
  stage_footprint σ basic.2 cfg ∧ stage_footprint σ bottleneck.2 cfg ∧
  (∀ l' c, σ !! l' = Some c → basic.2 !! l' = Some c ∧
                               bottleneck.2 !! l' = Some c) ∧
  (∀ d r, cfg !! "depth" = Some (VInt d) → 1 ≤ d → basic.1 = Ok r →
     basic.2 = <[fresh (dom σ) := <["strides" := VInt 1]> cfg]> σ) ∧
  (∀ d r, cfg !! "depth" = Some (VInt d) → 1 ≤ d → bottleneck.1 = Ok r →
     bottleneck.2 = <[fresh (dom σ) := <["strides" := VInt 1]> cfg]> σ).
Proof.
  intros Hl. cbv zeta.
  change (res_bottleneck_stage_complexity bottleneck_block_cx l shape σ)
    with (res_basic_stage_complexity bottleneck_block_cx l shape σ).
  destruct (res_stage_footprint basic_block σ l cfg shape Hl) as [Hb1 Hb2].
  destruct (res_stage_footprint bottleneck_block_cx σ l cfg shape Hl)
    as [Hn1 Hn2].
  split; [exact Hb1|]. split; [exact Hn1|]. split; [|split; [exact Hb2|exact Hn2]].
  intros l' c Hl'. pose proof (fresh_loc_ne σ l' c Hl') as Hne.
  split.
  - destruct Hb1 as [-> | [-> | ->]]; [done|by rewrite lookup_insert_ne..].
  - destruct Hn1 as [-> | [-> | ->]]; [done|by rewrite lookup_insert_ne..].
Qed.

Lemma X10_residual_stage_footprint_witness :
  let basic :=
    res_basic_stage_complexity counting_block 1%positive [64; 64; 3]
      stage_heap in
  let bottleneck :=
    res_bottleneck_stage_complexity counting_block 1%positive [64; 64; 3]
      stage_heap in
  stage_footprint stage_heap basic.2 stage_config ∧
  stage_footprint stage_heap bottleneck.2 stage_config ∧
  (∀ l' c, stage_heap !! l' = Some c → basic.2 !! l' = Some c ∧
                                        bottleneck.2 !! l' = Some c) ∧
  (∀ d r, stage_config !! "depth" = Some (VInt d) → 1 ≤ d →
     basic.1 = Ok r →
     basic.2 = <[fresh (dom stage_heap) :=
                   <["strides" := VInt 1]> stage_config]> stage_heap) ∧
  (∀ d r, stage_config !! "depth" = Some (VInt d) → 1 ≤ d →
     bottleneck.1 = Ok r →
     bottleneck.2 = <[fresh (dom stage_heap) :=
                        <["strides" := VInt 1]> stage_config]> stage_heap).
Proof.
  apply (X10_residual_stage_footprint counting_block counting_block
           stage_heap 1%positive stage_config [64; 64; 3]).
  reflexivity.
Defined.

(** ** The encoder layer with no attention head *)

(** X11.  [transformer_encoder_layer] does not look at the value of
    [n_head]: with [n_head] equal to 0 it returns a block.  The division
    [d_model // n_head] is made when the block runs, so every run of that
    block fails: with [AssertionError] on an input whose last axis is not
    [d_model], and with [ZeroDivisionError] otherwise. *)
Theorem X11_encoder_zero_heads (cfg : config) (d : Z) (x : tensor) :
  cfg !! "d_model" = Some (VInt d) → cfg !! "n_head" = Some (VInt 0) →
  ∃ env,
    transformer_encoder_layer cfg = Ok env ∧
    encoder_block env x =
      if py_eq (shape_last x) (VInt d) then Err ZeroDivisionError
      else Err AssertionError.
Proof.
  intros Hd Hn. eexists. split.
  - unfold transformer_encoder_layer, getitem. rewrite Hd, Hn. reflexivity.
  - unfold encoder_block. simpl en_d_model. simpl en_n_head.
    by destruct (py_eq (shape_last x) (VInt d)).
Qed.

Lemma X11_encoder_zero_heads_witness :
  ∃ env,
    transformer_encoder_layer {["d_model" := VInt 64; "n_head" := VInt 0]}
      = Ok env ∧
    encoder_block env (input_of [10; 64]) =
      if py_eq (shape_last (input_of [10; 64])) (VInt 64)
      then Err ZeroDivisionError else Err AssertionError.
Proof.
  apply (X11_encoder_zero_heads {["d_model" := VInt 64; "n_head" := VInt 0]}
           64 (input_of [10; 64])); reflexivity.
Defined.

(** ** The recurrent and dense blocks *)

Lemma reshape_flatten (t f c : Z) :
  0 < f → 0 < c → reshape_shape [-1; f * c] [t; f; c] = Ok [t; f * c].
Proof.
  intros Hf Hc. assert (Hfc : 0 < f * c) by nia.
  unfold reshape_shape.
  rewrite !filter_cons, !filter_nil.
  repeat case_decide; try lia. cbn [length Nat.eqb product foldr fmap list_fmap].
  replace (t * (f * (c * 1))) with (t * (f * c * 1)) by lia.
  rewrite Z.mod_mul, Z.div_mul by lia.
  destruct (Z.eqb_spec (f * c * 1) 0) as [|_]; [lia|]. simpl orb. cbv iota.
  simpl negb. cbv iota.
  destruct (Z.eqb_spec (f * c) (-1)) as [|_]; [lia|]. done.
Qed.

Lemma seq_call_gru (u t d : Z) (dr dr' : value) (ls : list seq_layer) :
  0 < u → 0 < t → check_number dr = Ok tt → check_number dr' = Ok tt →
  seq_call (BidirectionalGRU (VInt u) dr dr' "mul") (SeqTensor [t; d] ls)
  = Ok (SeqTensor [t; u] (ls ++ [BidirectionalGRU (VInt u) dr dr' "mul"])).
Proof.
  intros Hu Ht Hdr Hdr'. unfold seq_call, seq_layer_shape. simpl seq_shape.
  rewrite (as_positive_int_Ok _ _ Hu), Hdr, Hdr'. cbn [mbind result_bind].
  by destruct (Z.leb_spec t 0) as [|_]; [lia|].
Qed.

Lemma seq_call_dense (u : Z) (a nm : value) (reg : regularizer)
    (s : list Z) (ls : list seq_layer) :
  0 < u → check_activation a = Ok tt → (2 ≤ length s)%nat →
  seq_call (TimeDistributedDense (VInt u) a nm reg) (SeqTensor s ls)
  = Ok (SeqTensor (replace_last s u)
          (ls ++ [TimeDistributedDense (VInt u) a nm reg])).
Proof.
  intros Hu Ha Hs. unfold seq_call, seq_layer_shape, as_units.
  simpl seq_shape. destruct (Z.ltb_spec u 0) as [|_]; [lia|]. rewrite Ha.
  cbn [mbind result_bind].
  by destruct (Nat.leb_spec 2 (length s)) as [_|]; [|lia].
Qed.

Lemma seq_call_dropout (rate : value) (x : seq_tensor) :
  check_rate rate = Ok tt →
  seq_call (SeqDropout rate) x
  = Ok (SeqTensor (seq_shape x) (seq_layers x ++ [SeqDropout rate])).
Proof. intros Hr. unfold seq_call. simpl. by rewrite Hr. Qed.

Lemma gru_loop (dr : value) (us : list Z) :
  Forall (λ u, 0 < u) us → check_number dr = Ok tt →
  ∀ (t d : Z) (ls : list seq_layer),
    0 < t →
    for_each (λ units x, seq_call (BidirectionalGRU units dr dr "mul") x)
      (VInt <$> us) (SeqTensor [t; d] ls)
    = Ok (SeqTensor [t; default d (last us)]
            (ls ++ ((λ u, BidirectionalGRU (VInt u) dr dr "mul") <$> us))).
Proof.
  intros Hus Hdr. induction Hus as [|u us Hu _ IH]; intros t d ls Ht.
  - simpl. by rewrite app_nil_r.
  - rewrite fmap_cons. simpl for_each.
    rewrite (seq_call_gru u t d dr dr ls Hu Ht Hdr Hdr). simpl.
    rewrite IH, last_cons, <- app_assoc by done. simpl. by destruct (last us).
Qed.

(** X12.  For a list of positive unit counts and a numeric dropout rate,
    the block returned by [bidirectional_GRU_block] maps an input of shape
    (T, F, C) with T, F and C positive to shape (T, u), where u is the last
    unit count (F * C when there is none): the input is first flattened to
    (T, F * C) by one reshape layer, and each recurrent layer, merging its
    two directions by a product, has as many outputs as units.  An input
    of shape (T, D) gets no reshape layer. *)
Theorem X12_GRU_block_shape (cfg : config) (us : list Z) (t f c : Z)
    (ls : list seq_layer) :
  cfg !! "units" = Some (VList (VInt <$> us)) →
  check_number (get cfg "dropout_rate" (VFloat (Qmake 0 1))) = Ok tt →
  Forall (λ u, 0 < u) us → 0 < t → 0 < f → 0 < c →
  ∃ env out out',
    bidirectional_GRU_block cfg = Ok env ∧
    GRU_block env (SeqTensor [t; f; c] ls) = Ok out ∧
    seq_shape out = [t; default (f * c) (last us)] ∧
    length (seq_layers out) = (length ls + 1 + length us)%nat ∧
    GRU_block env (SeqTensor [t; c] ls) = Ok out' ∧
    seq_shape out' = [t; default c (last us)] ∧
    length (seq_layers out') = (length ls + length us)%nat.
Proof.
  intros Hunits Hdr Hus Ht Hf Hc.
  eexists. eexists. eexists. split.
  { unfold bidirectional_GRU_block, getitem. rewrite Hunits. reflexivity. }
  unfold GRU_block. simpl seq_shape. cbv iota.
  unfold seq_call at 2. simpl seq_layer_shape.
  rewrite (reshape_flatten t f c Hf Hc).
  simpl. rewrite !(gru_loop _ us Hus Hdr) by done.
  repeat split; simpl.
  - rewrite !length_app, length_fmap. simpl. lia.
  - by rewrite length_app, length_fmap.
Qed.

Lemma X12_GRU_block_shape_witness :
  ∃ env out out',
    bidirectional_GRU_block {["units" := VList (VInt <$> [128; 64])]}
      = Ok env ∧
    GRU_block env (SeqTensor [300; 4; 32] []) = Ok out ∧
    seq_shape out = [300; default (4 * 32) (last [128; 64])] ∧
    length (seq_layers out) = (length (@nil seq_layer) + 1 + length [128; 64])%nat ∧
    GRU_block env (SeqTensor [300; 32] []) = Ok out' ∧
    seq_shape out' = [300; default 32 (last [128; 64])] ∧
    length (seq_layers out') = (length (@nil seq_layer) + length [128; 64])%nat.
Proof.
  apply (X12_GRU_block_shape {["units" := VList (VInt <$> [128; 64])]}
           [128; 64] 300 4 32 []); [reflexivity|reflexivity| |lia|lia|lia].
  repeat constructor.
Defined.

Lemma replace_last_replace (s : list Z) (u d : Z) :
  replace_last (replace_last s u) d = replace_last s d.
Proof. unfold replace_last. by rewrite removelast_last. Qed.

Lemma replace_last_length (s : list Z) (u : Z) :
  s ≠ [] → length (replace_last s u) = length s.
Proof.
  intros Hs. unfold replace_last.
  destruct (exists_last Hs) as (s' & x & ->).
  by rewrite removelast_last, !length_app.
Qed.

Lemma dense_loop (reg : regularizer) (dr : value) (us : list Z) :
  Forall (λ u, 0 < u) us → check_rate dr = Ok tt →
  ∀ (s : list Z) (ls : list seq_layer),
    (2 ≤ length s)%nat →
    ∃ out,
      for_each (λ units x,
          x ← seq_call (TimeDistributedDense units VNone VNone reg) x;
          seq_call (SeqDropout dr) x)
        (VInt <$> us) (SeqTensor s ls) = Ok out ∧
      seq_shape out = match last us with
                      | Some u => replace_last s u
                      | None => s
                      end ∧
      length (seq_layers out) = (length ls + 2 * length us)%nat.
Proof.
  intros Hus Hdr. induction Hus as [|u us Hu _ IH]; intros s ls Hs.
  - exists (SeqTensor s ls). simpl. repeat split. lia.
  - assert (Hne : s ≠ []) by (destruct s; [simpl in Hs; lia|done]).
    destruct (IH (replace_last s u)
                (ls ++ [TimeDistributedDense (VInt u) VNone VNone reg]
                    ++ [SeqDropout dr]))
      as (out & Hout & Hshape & Hlen).
    { by rewrite replace_last_length. }
    exists out. split; [|split].
    + rewrite fmap_cons. simpl for_each.
      rewrite (seq_call_dense u VNone VNone reg s ls Hu eq_refl Hs). simpl.
      rewrite (seq_call_dropout dr _ Hdr). simpl.
      rewrite <- app_assoc. exact Hout.
    + rewrite Hshape, last_cons.
      destruct (last us); [apply replace_last_replace|done].
    + rewrite Hlen, !length_app. simpl. lia.
Qed.

(** X13.  For a list of positive unit counts, a positive class count, no
    layer name, a regularizer that [l1_l2] accepts, an activation that
    Keras knows and a dropout rate in [0, 1), the block returned by
    [simple_dense_block] maps an input of rank at least 2 and positive
    sizes to the same shape with the last axis replaced by [n_classes],
    whatever the hidden unit counts; it applies two layers per hidden
    entry and then the classifier, which is applied also when the list of
    hidden units is empty. *)
Theorem X13_dense_block_shape (cfg : config) (us : list Z) (n : Z)
    (reg : regularizer) (s : list Z) (ls : list seq_layer) :
  cfg !! "units" = Some (VList (VInt <$> us)) →
  cfg !! "n_classes" = Some (VInt n) →
  cfg !! "name" = None →
  l1_l2 (get cfg "kernel_regularizer" default_regularizer) = Ok reg →
  check_activation (get cfg "activation" VNone) = Ok tt →
  check_rate (get cfg "dropout_rate" (VInt 0)) = Ok tt →
  Forall (λ u, 0 < u) us → 0 < n →
  (2 ≤ length s)%nat → Forall (λ d, 0 < d) s →
  ∃ env out,
    simple_dense_block cfg = Ok env ∧
    dense_block env (SeqTensor s ls) = Ok out ∧
    seq_shape out = replace_last s n ∧
    length (seq_layers out) = (length ls + 2 * length us + 1)%nat ∧
    last (seq_layers out) =
      Some (TimeDistributedDense (VInt n) (get cfg "activation" VNone)
              VNone reg).
Proof.
  intros Hunits Hn Hname Hreg Hact Hrate Hus Hn0 Hs _.
  destruct (dense_loop reg (get cfg "dropout_rate" (VInt 0)) us Hus Hrate
              s ls Hs)
    as (x & Hx & Hshape & Hlen).
  assert (Hrank : (2 ≤ length (seq_shape x))%nat).
  { rewrite Hshape. destruct (last us); [|done].
    rewrite replace_last_length; [done|]. destruct s; [simpl in Hs; lia|done]. }
  destruct x as [sx lx]. simpl in Hshape, Hlen, Hrank.
  eexists. eexists. split.
  { unfold simple_dense_block, getitem. rewrite Hunits, Hn.
    cbn [mbind result_bind]. rewrite Hreg. reflexivity. }
  unfold dense_block. simpl. rewrite Hx. simpl.
  rewrite (seq_call_dense n _ _ reg sx lx Hn0 Hact Hrank).
  split; [reflexivity|]. simpl. rewrite (get_default cfg "name" VNone Hname).
  repeat split.
  - rewrite Hshape. destruct (last us); [|done].
    unfold replace_last. by rewrite removelast_last.
  - rewrite length_app, Hlen. simpl. lia.
  - by rewrite last_snoc.
Qed.

Lemma X13_dense_block_shape_witness :
  ∃ env out,
    simple_dense_block
        {["units" := VList (VInt <$> [128; 64]); "n_classes" := VInt 14]}
      = Ok env ∧
    dense_block env (SeqTensor [300; 256] []) = Ok out ∧
    seq_shape out = replace_last [300; 256] 14 ∧
    length (seq_layers out)
      = (length (@nil seq_layer) + 2 * length [128; 64] + 1)%nat ∧
    last (seq_layers out) =
      Some (TimeDistributedDense (VInt 14)
              (get ({["units" := VList (VInt <$> [128; 64]);
                      "n_classes" := VInt 14]} : config) "activation" VNone)
              VNone
              (L1L2 (VFloat (Qmake 0 1)) (VFloat (Qmake 0 1)))).
Proof.
  apply (X13_dense_block_shape
           {["units" := VList (VInt <$> [128; 64]); "n_classes" := VInt 14]}
           [128; 64] 14 (L1L2 (VFloat (Qmake 0 1)) (VFloat (Qmake 0 1)))
           [300; 256] []);
    [reflexivity|reflexivity|reflexivity|reflexivity|reflexivity|reflexivity
    | |lia|simpl; lia|repeat constructor; lia].
  repeat constructor.
Defined.
